(** * The Monte Carlo precision/recall estimator of the hypothesis-testing lesson

    The two notebooks of the repository define [calc_precision_recall]: a loop
    of [n_iters] trials, each of which re-seeds numpy's generator, draws a
    sample, runs a one-sample lower-tailed t-test against [reference_mean]
    and tallies the outcome in one of four counters; precision and recall
    are computed from the counters after the loop.

    Python floats and numpy's float64 are IEEE 754 binary64 numbers: they are
    modelled by Rocq's primitive floats, whose operations are the same
    correctly rounded binary64 operations.  Python integers are [Z]. *)

From Stdlib Require Import Floats ZArith QArith List Bool Lia Permutation.
Import ListNotations.

Set Warnings "-inexact-float".

(** * Part I: the model *)

(** ** IEEE 754 order

    The evaluator decides every trial with [<] and [>=] on floats.  Both are
    false as soon as one operand is NaN.  The facts needed about them are
    derived in Part II from the specification of the primitive comparisons,
    by ranking the non-NaN numbers in a lexicographic order on integer
    triples. *)
Module IEEE.

Local Open Scope Z_scope.

(** [rank f] orders the non-NaN numbers: class first (-inf, negative, zero,
    positive, +inf), then exponent, then mantissa. *)
Definition rank (f : spec_float) : Z * Z * Z :=
  match f with
  | S754_zero _ => (0, 0, 0)
  | S754_infinity true => (-2, 0, 0)
  | S754_infinity false => (2, 0, 0)
  | S754_nan => (0, 0, 0)
  | S754_finite true m e => (-1, - e, - Z.pos m)
  | S754_finite false m e => (1, e, Z.pos m)
  end.

Definition lt3 (a b : Z * Z * Z) : Prop :=
  let '(a1, a2, a3) := a in
  let '(b1, b2, b3) := b in
  a1 < b1 \/ (a1 = b1 /\ (a2 < b2 \/ (a2 = b2 /\ a3 < b3))).

Definition sf_nan (f : spec_float) : bool :=
  match f with S754_nan => true | _ => false end.

End IEEE.

(** ** Python values and operators *)
Module Py.

(** The exceptions met here: [ZeroDivisionError] is the only one the
    function body itself can raise; [ValueError] is what numpy raises when it
    is asked for a sample of negative size. *)
Inductive exn : Set := ZeroDivisionError | ValueError.

Inductive result (A : Type) : Type :=
| Return (a : A)
| Raise (e : exn).
Arguments Return {A} a.
Arguments Raise {A} e.

Definition bind {A B : Type} (c : result A) (k : A -> result B) : result B :=
  match c with
  | Return a => k a
  | Raise e => Raise e
  end.

(** [float(z)] for a Python integer; exact for [|z| < 2^53], which covers
    every counter and every length met here.  (Beyond [2^63] the conversion
    below wraps, which Python's does not.) *)
Definition float_of_int (z : Z) : float :=
  if (z <? 0)%Z then PrimFloat.opp (PrimFloat.of_uint63 (Uint63.of_Z (- z)))
  else PrimFloat.of_uint63 (Uint63.of_Z z).

(** [a / b] on two Python integers.  The notebooks run on Python 3, where
    this is true division: the quotient as a float, and [ZeroDivisionError]
    when [b] is zero. *)
Definition truediv (a b : Z) : result float :=
  if (b =? 0)%Z then Raise ZeroDivisionError
  else Return (PrimFloat.div (float_of_int a) (float_of_int b)).

(** [x < y] and [x >= y] on floats. *)
Definition lt (x y : float) : bool := PrimFloat.ltb x y.
Definition ge (x y : float) : bool := PrimFloat.leb y x.

(** [len(x)] *)
Definition len {A : Type} (x : list A) : Z := Z.of_nat (length x).

End Py.

Notation "x <- c ;; k" := (Py.bind c (fun x => k))
  (at level 61, c at next level, right associativity).

(** ** numpy reductions

    [mean], [std] and [sqrt] are imported from numpy.  Their results on a
    float64 array are modelled on primitive floats.  Sums are taken left to
    right.  numpy adds an array of eight or more elements in blocks,
    pairwise, so the last bits of the [mean] and [std] of such an array, and
    what is computed from them, can differ from the values computed here.
    The statements that quantify over the sample do not depend on the order
    of the additions; the closed examples on 100 observations are
    evaluations of the sums as written here. *)
Module Np.

Definition sum (x : list float) : float := fold_left PrimFloat.add x 0%float.

(** [numpy.mean(x)]: the sum divided by the number of elements (NaN on an
    empty array). *)
Definition mean (x : list float) : float :=
  PrimFloat.div (sum x) (Py.float_of_int (Py.len x)).

(** [numpy.var(x, ddof)]: the sum of the squared deviations from the mean,
    divided by [max (N - ddof) 0]. *)
Definition var (x : list float) (ddof : Z) : float :=
  let arrmean := mean x in
  let dev := map (fun v => PrimFloat.sub v arrmean) x in
  PrimFloat.div (sum (map (fun d => PrimFloat.mul d d) dev))
                (Py.float_of_int (Z.max (Py.len x - ddof) 0)).

(** [numpy.std(x, ddof)]; numpy's default is [ddof = 0]. *)
Definition std (x : list float) (ddof : Z) : float := PrimFloat.sqrt (var x ddof).

Definition sqrt (v : float) : float := PrimFloat.sqrt v.

End Np.

(** ** The library functions the notebooks call

    The pseudo-random generator of [numpy.random], [scipy.stats.norm.rvs],
    [scipy.stats.t.cdf] and the float power operator are not part of the
    repository: the evaluator is parametrised by them.  The generator is
    global mutable state in numpy; here it is threaded explicitly.
    [seed s] is the state installed by [numpy.random.seed(s)], which
    discards the previous state.  Sample sizes are natural numbers, and a
    call of the library cannot fail; what numpy does with a negative size
    is added in [Part000.norm_rvs_sized]. *)
Class Library : Type := {
  rng : Type;
  seed : Z -> rng;
  (** [rand()]: one uniform draw *)
  rand : rng -> float * rng;
  (** [randn(n)]: [n] standard normal draws *)
  randn : nat -> rng -> list float * rng;
  (** [norm.rvs(loc, scale, size)] *)
  norm_rvs : float -> float -> nat -> rng -> list float * rng;
  (** [x ** y] on floats *)
  pow : float -> float -> float;
  (** [t.cdf(tstat, df)] *)
  t_cdf : float -> Z -> float
}.

(** The module-level variables read by [calc_precision_recall]. *)
Record Globals : Type := {
  true_mean : float;
  true_variance : float;
  reference_mean : float
}.

(** Their values in both notebooks. *)
Definition Notebook : Globals :=
  {| true_mean := 2.82; true_variance := 0.56; reference_mean := 2.93 |}.

(** ** The evaluator *)

(** [truth] is the string ['positive'] or ['negative']. *)
Inductive truth : Set := positive | negative.

Definition truth_eqb (a b : truth) : bool :=
  match a, b with
  | positive, positive | negative, negative => true
  | _, _ => false
  end.

Record tally : Type := {
  true_positives : Z;
  false_positives : Z;
  true_negatives : Z;
  false_negatives : Z
}.

Definition zero_tally : tally :=
  {| true_positives := 0; false_positives := 0;
     true_negatives := 0; false_negatives := 0 |}.

(** What the function prints after the loop. *)
Record report : Type := {
  counts : tally;
  precision : float;
  recall : float
}.

Definition n_iters : nat := Z.to_nat 10000.

(** The four [if] statements that close the loop body, in source order. *)
Definition tally_trial (t : truth) (pvalue signif_level : float) (c : tally) : tally :=
  let c1 :=
    if truth_eqb t positive && Py.lt pvalue signif_level
    then {| true_positives := true_positives c + 1;
            false_positives := false_positives c;
            true_negatives := true_negatives c;
            false_negatives := false_negatives c |}
    else c in
  let c2 :=
    if truth_eqb t positive && Py.ge pvalue signif_level
    then {| true_positives := true_positives c1;
            false_positives := false_positives c1;
            true_negatives := true_negatives c1;
            false_negatives := false_negatives c1 + 1 |}
    else c1 in
  let c3 :=
    if truth_eqb t negative && Py.lt pvalue signif_level
    then {| true_positives := true_positives c2;
            false_positives := false_positives c2 + 1;
            true_negatives := true_negatives c2;
            false_negatives := false_negatives c2 |}
    else c2 in
  if truth_eqb t negative && Py.ge pvalue signif_level
  then {| true_positives := true_positives c3;
          false_positives := false_positives c3;
          true_negatives := true_negatives c3 + 1;
          false_negatives := false_negatives c3 |}
  else c3.

(** [precision] and [recall] after the loop: two integer divisions, each of
    which raises when its denominator is zero. *)
Definition metrics (c : tally) : Py.result report :=
  p <- Py.truediv (true_positives c) (true_positives c + false_positives c) ;;
  r <- Py.truediv (true_positives c) (true_positives c + false_negatives c) ;;
  Py.Return {| counts := c; precision := p; recall := r |}.

Section Evaluator.

Context {L : Library} (G : Globals).

(** The statistics of a sample are numpy float64 scalars.  Their division
    follows IEEE 754: dividing by zero gives an infinity or NaN (numpy emits
    a [RuntimeWarning], which is not an exception and is not modelled) and
    never raises, unlike the division of Python integers in [metrics]. *)

(** [se = std(x)/sqrt(len(x))] *)
Definition se (x : list float) : float :=
  PrimFloat.div (Np.std x 0) (Np.sqrt (Py.float_of_int (Py.len x))).

(** [tstat = (mean(x)-reference_mean)/se] *)
Definition tstat (x : list float) : float :=
  PrimFloat.div (PrimFloat.sub (Np.mean x) (reference_mean G)) (se x).

(** [pvalue = t.cdf(tstat,df=len(x)-1)] *)
Definition pvalue (x : list float) : float :=
  t_cdf (tstat x) (Py.len x - 1).

(** The two notebooks differ only in how a trial chooses its ground truth and
    draws its sample; [draw iteration st] is that part of the loop body. *)
Variable draw : nat -> rng -> truth * list float * rng.

(** One pass through the loop body.  [seed(313+iteration)] replaces the
    generator state left by the previous pass. *)
Definition loop_body (signif_level : float) (acc : tally * rng) (iteration : nat)
  : tally * rng :=
  let st := seed (313 + Z.of_nat iteration) in
  let '(t, x, st') := draw iteration st in
  (tally_trial t (pvalue x) signif_level (fst acc), st').

(** [for iteration in range(n)] from zeroed counters. *)
Definition run_trials (signif_level : float) (n : nat) (st0 : rng) : tally * rng :=
  fold_left (loop_body signif_level) (seq 0 n) (zero_tally, st0).

(** The whole function: the loop over [n_iters] trials, then the metrics.
    The function returns nothing; what it prints after the loop (the four
    counters and the two metrics) is recorded in the report.  A failing
    division leaves the function before anything is printed. *)
Definition evaluate (signif_level : float) (st0 : rng) : Py.result report * rng :=
  let '(c, st) := run_trials signif_level n_iters st0 in
  (metrics c, st).

End Evaluator.

(** *** [calc_precision_recall(nsamples, signif_level, p_positive)]

    The function of the notebook stored as [part_000]: the ground truth of a
    trial is chosen by a uniform draw against [p_positive]. *)
Module Part000.

Section Draw.
Context {L : Library} (G : Globals).

Definition draw (nsamples : nat) (p_positive : float) (iteration : nat) (st : rng)
  : truth * list float * rng :=
  let '(u, st1) := rand st in
  if Py.lt u p_positive then
    let '(x, st2) :=
      norm_rvs (true_mean G) (pow (true_variance G) 0.5) nsamples st1 in
    (positive, x, st2)
  else
    let '(x, st2) :=
      norm_rvs (reference_mean G) (pow (true_variance G) 0.5) nsamples st1 in
    (negative, x, st2).

Definition calc_precision_recall (nsamples : nat) (signif_level p_positive : float)
  (st0 : rng) : Py.result report * rng :=
  evaluate G (draw nsamples p_positive) signif_level st0.

End Draw.

(** The constraints the specification puts on a configuration. *)
Definition valid_config (nsamples : nat) (signif_level p_positive : float) : bool :=
  (2 <=? nsamples)%nat
  && PrimFloat.ltb 0 signif_level && PrimFloat.ltb signif_level 1
  && PrimFloat.leb 0 p_positive && PrimFloat.leb p_positive 1.

(** **** The function called with any Python integer for [nsamples]

    [nsamples] reaches [norm.rvs] as it was passed.  numpy refuses to build
    an array of negative size with [ValueError]; that exception leaves the
    loop and the function.  Below, the loop is written once more with a
    draw that can fail.  A raised outcome carries no generator state: what a
    failed library call leaves behind is not modelled. *)
Section Sized.
Context {L : Library} (G : Globals).

(** [norm.rvs(loc, scale, size)] for an integer [size] *)
Definition norm_rvs_sized (loc scale : float) (size : Z) (st : rng)
  : Py.result (list float * rng) :=
  if (size <? 0)%Z then Py.Raise Py.ValueError
  else Py.Return (norm_rvs loc scale (Z.to_nat size) st).

Definition draw_sized (nsamples : Z) (p_positive : float) (iteration : nat) (st : rng)
  : Py.result (truth * list float * rng) :=
  let '(u, st1) := rand st in
  if Py.lt u p_positive then
    xs <- norm_rvs_sized (true_mean G) (pow (true_variance G) 0.5) nsamples st1 ;;
    Py.Return (positive, fst xs, snd xs)
  else
    xs <- norm_rvs_sized (reference_mean G) (pow (true_variance G) 0.5) nsamples st1 ;;
    Py.Return (negative, fst xs, snd xs).

(** One pass through the loop body; a pass that follows an exception is not
    run. *)
Definition loop_body_sized (nsamples : Z) (signif_level p_positive : float)
  (acc : Py.result (tally * rng)) (iteration : nat) : Py.result (tally * rng) :=
  a <- acc ;;
  d <- draw_sized nsamples p_positive iteration (seed (313 + Z.of_nat iteration)) ;;
  Py.Return (tally_trial (fst (fst d)) (pvalue G (snd (fst d))) signif_level (fst a),
             snd d).

Definition run_trials_sized (nsamples : Z) (signif_level p_positive : float)
  (n : nat) (st0 : rng) : Py.result (tally * rng) :=
  fold_left (loop_body_sized nsamples signif_level p_positive) (seq 0 n)
            (Py.Return (zero_tally, st0)).

Definition calc_precision_recall_sized (nsamples : Z) (signif_level p_positive : float)
  (st0 : rng) : Py.result (report * rng) :=
  a <- run_trials_sized nsamples signif_level p_positive n_iters st0 ;;
  r <- metrics (fst a) ;;
  Py.Return (r, snd a).

End Sized.

End Part000.

(** *** [calc_precision_recall(nsamples, signif_level)]

    The function of [Lesson1-HypothesisTesting.ipynb]: the ground truth
    alternates with the parity of the iteration and the sample is
    [randn(nsamples)*true_variance**0.5 + mean]. *)
Module Lesson1.

Section Draw.
Context {L : Library} (G : Globals).

Definition draw (nsamples : nat) (iteration : nat) (st : rng)
  : truth * list float * rng :=
  if (Z.of_nat iteration mod 2 =? 0)%Z then
    let '(z, st1) := randn nsamples st in
    (positive,
     map (fun v => PrimFloat.add (PrimFloat.mul v (pow (true_variance G) 0.5))
                                 (true_mean G)) z,
     st1)
  else
    let '(z, st1) := randn nsamples st in
    (negative,
     map (fun v => PrimFloat.add (PrimFloat.mul v (pow (true_variance G) 0.5))
                                 (reference_mean G)) z,
     st1).

Definition calc_precision_recall (nsamples : nat) (signif_level : float)
  (st0 : rng) : Py.result report * rng :=
  evaluate G (draw nsamples) signif_level st0.

End Draw.

End Lesson1.

(** ** Derived quantities used in the statements *)

Definition total (c : tally) : Z :=
  (true_positives c + false_positives c + true_negatives c + false_negatives c)%Z.

(** Trials decided "reject" and trials decided "fail to reject". *)
Definition rejections (c : tally) : Z := (true_positives c + false_positives c)%Z.
Definition acceptances (c : tally) : Z := (true_negatives c + false_negatives c)%Z.

(** A p-value the two comparisons of the loop body can order. *)
Definition comparable (pvalue signif_level : float) : bool :=
  Py.lt pvalue signif_level || Py.ge pvalue signif_level.

(** Recall as an exact fraction. *)
Definition recall_exact (c : tally) : Q :=
  (inject_Z (true_positives c) / inject_Z (true_positives c + false_negatives c))%Q.

(** Two properties of numpy and scipy that the types of the library
    parameters do not express and that some statements assume: the
    generators return as many observations as they are asked for, and
    [t.cdf] is NaN when the degrees of freedom are not positive. *)
Definition returns_requested_size (L : Library) : Prop :=
  (forall loc scale n st, length (fst (norm_rvs loc scale n st)) = n) /\
  (forall n st, length (fst (randn n st)) = n).

Definition cdf_nan_without_freedom (L : Library) : Prop :=
  forall (t : float) (df : Z), (df <= 0)%Z -> PrimFloat.is_nan (t_cdf t df) = true.

(** [bumps_one c c']: [c'] is [c] with exactly one counter incremented by one. *)
Inductive bumps_one (c : tally) : tally -> Prop :=
| bump_tp : bumps_one c
    {| true_positives := true_positives c + 1; false_positives := false_positives c;
       true_negatives := true_negatives c; false_negatives := false_negatives c |}
| bump_fn : bumps_one c
    {| true_positives := true_positives c; false_positives := false_positives c;
       true_negatives := true_negatives c; false_negatives := false_negatives c + 1 |}
| bump_fp : bumps_one c
    {| true_positives := true_positives c; false_positives := false_positives c + 1;
       true_negatives := true_negatives c; false_negatives := false_negatives c |}
| bump_tn : bumps_one c
    {| true_positives := true_positives c; false_positives := false_positives c;
       true_negatives := true_negatives c + 1; false_negatives := false_negatives c |}.

Section Trials.
Context {L : Library} (G : Globals).
Variable draw : nat -> rng -> truth * list float * rng.

(** The ground truth, sample and p-value of trial [i]: what the loop body
    computes from the freshly seeded generator. *)
Definition trial_truth (i : nat) : truth :=
  fst (fst (draw i (seed (313 + Z.of_nat i)))).

Definition trial_sample (i : nat) : list float :=
  snd (fst (draw i (seed (313 + Z.of_nat i)))).

Definition trial_pvalue (i : nat) : float := pvalue G (trial_sample i).

End Trials.

(** ** A concrete library for closed examples

    To evaluate the function on concrete inputs the library parameters have
    to be instantiated.  [Fixture.stuck] is a small deterministic library.
    The generator state is an integer, [seed s] is [s], and every draw
    advances the state.  A uniform draw is [(st mod 4)/4].  The generator of
    normal deviates is stuck at zero: [randn] returns zeros, and [norm_rvs],
    which scipy computes as [loc + scale * z] from standard deviates [z],
    returns a sample constant at [loc].  The t-distribution function is NaN
    on NaN and on [df <= 0], 0 and 1 at the infinities, as scipy's is, and
    otherwise, whatever [df] is, the closed form
    [1/2 + t / (2 sqrt (2 + t^2))] of the distribution with two degrees of
    freedom: a stand-in, of which the examples use no more than that its
    value is a number.

    This is not numpy's generator, which does not return a constant sample
    of two or more observations.  The library serves to evaluate the code
    where the standard error is zero -- with numpy that takes a sample of
    one observation, and there the two agree -- and to show that the
    hypotheses of the statements can be met. *)
Module Fixture.

Definition uniform (st : Z) : float :=
  PrimFloat.div (Py.float_of_int (st mod 4)) 4.

Definition student_cdf (t : float) (df : Z) : float :=
  if PrimFloat.is_nan t || (df <=? 0)%Z then nan
  else if PrimFloat.eqb t neg_infinity then 0%float
  else if PrimFloat.eqb t infinity then 1%float
  else PrimFloat.add 0.5
         (PrimFloat.div t (PrimFloat.mul 2 (PrimFloat.sqrt (PrimFloat.add 2 (PrimFloat.mul t t))))).

Definition stuck : Library :=
  {| rng := Z;
     seed := fun s => s;
     rand := fun st => (uniform st, (st + 1)%Z);
     randn := fun n st => (repeat 0%float n, (st + Z.of_nat n)%Z);
     norm_rvs := fun loc scale n st =>
       (map (fun z => PrimFloat.add loc (PrimFloat.mul scale z)) (repeat 0%float n),
        (st + Z.of_nat n)%Z);
     pow := fun x y => if PrimFloat.eqb y 0.5 then PrimFloat.sqrt x else nan;
     t_cdf := student_cdf |}.

End Fixture.

(** The sample standard deviation in the specification's words: the
    unbiased estimator, with divisor [n - 1]. *)
Definition std_unbiased (x : list float) : float := Np.std x 1.

(** How [calc_precision_recall] draws its trials from that library. *)
Definition stuck_draw (nsamples : nat) (p_positive : float)
  : nat -> Z -> truth * list float * Z :=
  Part000.draw (L := Fixture.stuck) Notebook nsamples p_positive.

(** ** Sign classes of a float

    [sf_pos] holds of NaN and of the numbers whose sign bit is clear (so not
    of -0); [sf_neg] and [sf_gt0] hold of the numbers strictly below and
    strictly above zero. *)
Module IEEE_sign.

Definition sf_pos (f : spec_float) : bool :=
  match f with
  | S754_nan => true
  | S754_zero s | S754_infinity s | S754_finite s _ _ => negb s
  end.

Definition sf_neg (f : spec_float) : bool :=
  match f with
  | S754_infinity true | S754_finite true _ _ => true
  | _ => false
  end.

Definition sf_gt0 (f : spec_float) : bool :=
  match f with
  | S754_infinity false | S754_finite false _ _ => true
  | _ => false
  end.

End IEEE_sign.

(** ** The cells around the function

    Besides [calc_precision_recall] the notebooks hold a single-sample
    t-test, written as three cells of top-level statements, and cells that
    call the function with several arguments. *)

(** The number of iterations below [n] that satisfy [f]. *)
Definition count_trials (f : nat -> bool) (n : nat) : Z :=
  Z.of_nat (length (filter f (seq 0 n))).

(** Consecutive calls in one cell: each call starts from the generator state
    the previous one left, and an exception ends the cell. *)
Fixpoint seq_calls {S : Type} (calls : list (S -> Py.result report * S)) (st : S)
  : Py.result (list report) * S :=
  match calls with
  | [] => (Py.Return [], st)
  | call :: rest =>
      let '(o, st1) := call st in
      match o with
      | Py.Raise e => (Py.Raise e, st1)
      | Py.Return r =>
          let '(os, st2) := seq_calls rest st1 in
          match os with
          | Py.Raise e => (Py.Raise e, st2)
          | Py.Return rs => (Py.Return (r :: rs), st2)
          end
      end
  end.

Section Cells.

Context {L : Library} (G : Globals).

(** [seed(313); x = randn(100)*true_variance**0.5 + true_mean] *)
Definition lesson1_cell_sample : list float * rng :=
  let '(z, st) := randn 100 (seed 313) in
  (map (fun v => PrimFloat.add (PrimFloat.mul v (pow (true_variance G) 0.5))
                               (true_mean G)) z,
   st).

(** The next two cells compute [se], [tstat] and [pvalue] from [x] with the
    expressions of the loop body. *)
Definition cell_pvalue (x : list float) : float := pvalue G x.

(** [calc_precision_recall()]: the defaults are 100 samples, level 0.05 and,
    in [part_000], probability 0.5. *)
Definition part000_cell_default (st : rng) : Py.result report * rng :=
  Part000.calc_precision_recall G 100 0.05 0.5 st.

Definition lesson1_cell_default (st : rng) : Py.result report * rng :=
  Lesson1.calc_precision_recall G 100 0.05 st.

(** [calc_precision_recall(signif_level=0.01)], [(signif_level=0.05)],
    [(signif_level=0.10)], in one cell. *)
Definition part000_cell_levels (st : rng) : Py.result (list report) * rng :=
  seq_calls [Part000.calc_precision_recall G 100 0.01 0.5;
             Part000.calc_precision_recall G 100 0.05 0.5;
             Part000.calc_precision_recall G 100 0.10 0.5] st.

Definition lesson1_cell_levels (st : rng) : Py.result (list report) * rng :=
  seq_calls [Lesson1.calc_precision_recall G 100 0.01;
             Lesson1.calc_precision_recall G 100 0.05;
             Lesson1.calc_precision_recall G 100 0.10] st.

(** [calc_precision_recall(signif_level=0.05, p_positive=0.5)],
    [(..., p_positive=0.1)], [(..., p_positive=0.01)], in one cell. *)
Definition part000_cell_probabilities (st : rng) : Py.result (list report) * rng :=
  seq_calls [Part000.calc_precision_recall G 100 0.05 0.5;
             Part000.calc_precision_recall G 100 0.05 0.1;
             Part000.calc_precision_recall G 100 0.05 0.01] st.

(** The loop body run over an arbitrary list of iteration indices;
    [run_trials] is the case of [seq 0 n]. *)
Definition run_over (draw : nat -> rng -> truth * list float * rng)
  (signif_level : float) (iterations : list nat) (acc : tally * rng) : tally * rng :=
  fold_left (loop_body G draw signif_level) iterations acc.

End Cells.

(** A second concrete library: as [Fixture.stuck], but the standard deviates
    alternate between 1 and -1, so that samples of two or more observations
    are not constant. *)
Definition alternating_deviates (n : nat) : list float :=
  map (fun k => if Nat.even k then 1%float else (-1)%float) (seq 0 n).

Definition alternating : Library :=
  {| rng := Z;
     seed := fun s => s;
     rand := fun st => (Fixture.uniform st, (st + 1)%Z);
     randn := fun n st => (alternating_deviates n, (st + Z.of_nat n)%Z);
     norm_rvs := fun loc scale n st =>
       (map (fun z => PrimFloat.add loc (PrimFloat.mul scale z)) (alternating_deviates n),
        (st + Z.of_nat n)%Z);
     pow := fun x y => if PrimFloat.eqb y 0.5 then PrimFloat.sqrt x else nan;
     t_cdf := Fixture.student_cdf |}.

(** * Part II: properties *)

(** ** IEEE 754 comparisons *)
Module IEEE_facts.

Import IEEE.
Local Open Scope Z_scope.

Lemma SFcompare_nan_l : forall y, SFcompare S754_nan y = None.
Proof. reflexivity. Qed.

Lemma SFcompare_nan_r : forall x, SFcompare x S754_nan = None.
Proof. intros [s| s| |s m e]; reflexivity. Qed.

(** On non-NaN numbers [SFcompare] is the lexicographic comparison of the
    ranks. *)
Lemma SFcompare_rank : forall x y,
  sf_nan x = false -> sf_nan y = false ->
  (SFcompare x y = Some Lt /\ lt3 (rank x) (rank y)) \/
  (SFcompare x y = Some Eq /\ rank x = rank y) \/
  (SFcompare x y = Some Gt /\ lt3 (rank y) (rank x)).
Proof.
  intros [[]|[]| |[] m1 e1] [[]|[]| |[] m2 e2] Hx Hy;
    try discriminate; cbn [SFcompare rank lt3];
    try (left; split; [reflexivity | lia]);
    try (right; left; split; reflexivity);
    try (right; right; split; [reflexivity | lia]).
  - destruct (Z.compare_spec e1 e2) as [He|He|He].
    + change (PosDef.Pos.compare_cont Eq m1 m2) with (Pos.compare m1 m2).
      destruct (Pos.compare_spec m1 m2) as [Hm|Hm|Hm]; cbn [CompOpp].
      * right; left; split; [reflexivity | subst; reflexivity].
      * right; right; split; [reflexivity | lia].
      * left; split; [reflexivity | lia].
    + right; right; split; [reflexivity | lia].
    + left; split; [reflexivity | lia].
  - destruct (Z.compare_spec e1 e2) as [He|He|He].
    + change (PosDef.Pos.compare_cont Eq m1 m2) with (Pos.compare m1 m2).
      destruct (Pos.compare_spec m1 m2) as [Hm|Hm|Hm].
      * right; left; split; [reflexivity | subst; reflexivity].
      * left; split; [reflexivity | lia].
      * right; right; split; [reflexivity | lia].
    + left; split; [reflexivity | lia].
    + right; right; split; [reflexivity | lia].
Qed.

Lemma lt3_irrefl : forall a, ~ lt3 a a.
Proof. intros [[a1 a2] a3]; cbn; lia. Qed.

Lemma lt3_asym : forall a b, lt3 a b -> ~ lt3 b a.
Proof. intros [[a1 a2] a3] [[b1 b2] b3]; cbn; lia. Qed.

Lemma lt3_trans : forall a b c, lt3 a b -> lt3 b c -> lt3 a c.
Proof. intros [[a1 a2] a3] [[b1 b2] b3] [[c1 c2] c3]; cbn; lia. Qed.

(** The primitive comparisons in terms of ranks. *)
Lemma ltb_true_iff : forall x y : float,
  PrimFloat.ltb x y = true <->
  sf_nan (Prim2SF x) = false /\ sf_nan (Prim2SF y) = false /\
  lt3 (rank (Prim2SF x)) (rank (Prim2SF y)).
Proof.
  intros x y. rewrite FloatAxioms.ltb_spec. unfold SFltb.
  destruct (sf_nan (Prim2SF x)) eqn:Hx.
  { destruct (Prim2SF x); try discriminate. cbn. intuition discriminate. }
  destruct (sf_nan (Prim2SF y)) eqn:Hy.
  { destruct (Prim2SF y); try discriminate. rewrite SFcompare_nan_r.
    intuition discriminate. }
  destruct (SFcompare_rank _ _ Hx Hy) as [[E H]|[[E H]|[E H]]]; rewrite E.
  - intuition.
  - split; [discriminate|]. intros (_ & _ & C). rewrite H in C.
    exfalso; eapply lt3_irrefl; eassumption.
  - split; [discriminate|]. intros (_ & _ & C).
    exfalso; eapply lt3_asym; eassumption.
Qed.

Lemma leb_true_iff : forall x y : float,
  PrimFloat.leb x y = true <->
  sf_nan (Prim2SF x) = false /\ sf_nan (Prim2SF y) = false /\
  ~ lt3 (rank (Prim2SF y)) (rank (Prim2SF x)).
Proof.
  intros x y. rewrite FloatAxioms.leb_spec. unfold SFleb.
  destruct (sf_nan (Prim2SF x)) eqn:Hx.
  { destruct (Prim2SF x); try discriminate. cbn. intuition discriminate. }
  destruct (sf_nan (Prim2SF y)) eqn:Hy.
  { destruct (Prim2SF y); try discriminate. rewrite SFcompare_nan_r.
    intuition discriminate. }
  destruct (SFcompare_rank _ _ Hx Hy) as [[E H]|[[E H]|[E H]]]; rewrite E.
  - split; [|reflexivity]. intros _. repeat split.
    apply lt3_asym; assumption.
  - split; [|reflexivity]. intros _. repeat split.
    rewrite H. apply lt3_irrefl.
  - split; [discriminate|]. intros (_ & _ & C). contradiction.
Qed.

Lemma eqb_true_iff : forall x y : float,
  PrimFloat.eqb x y = true <->
  sf_nan (Prim2SF x) = false /\ sf_nan (Prim2SF y) = false /\
  rank (Prim2SF x) = rank (Prim2SF y).
Proof.
  intros x y. rewrite FloatAxioms.eqb_spec. unfold SFeqb.
  destruct (sf_nan (Prim2SF x)) eqn:Hx.
  { destruct (Prim2SF x); try discriminate. cbn. intuition discriminate. }
  destruct (sf_nan (Prim2SF y)) eqn:Hy.
  { destruct (Prim2SF y); try discriminate. rewrite SFcompare_nan_r.
    intuition discriminate. }
  destruct (SFcompare_rank _ _ Hx Hy) as [[E H]|[[E H]|[E H]]]; rewrite E.
  - split; [discriminate|]. intros (_ & _ & C). rewrite C in H.
    exfalso; eapply lt3_irrefl; eassumption.
  - intuition.
  - split; [discriminate|]. intros (_ & _ & C). rewrite C in H.
    exfalso; eapply lt3_irrefl; eassumption.
Qed.

(** [is_nan] recognises exactly the NaNs. *)
Lemma is_nan_spec : forall x : float,
  PrimFloat.is_nan x = sf_nan (Prim2SF x).
Proof.
  intros x. unfold PrimFloat.is_nan.
  destruct (PrimFloat.eqb x x) eqn:E.
  - apply eqb_true_iff in E. destruct E as (E & _). rewrite E. reflexivity.
  - destruct (sf_nan (Prim2SF x)) eqn:Hx; [reflexivity|].
    assert (PrimFloat.eqb x x = true) as C
      by (apply eqb_true_iff; repeat split; assumption).
    congruence.
Qed.

Lemma rank_zero : forall f,
  sf_nan f = false -> rank f = (0, 0, 0) -> exists s, f = S754_zero s.
Proof.
  intros [s|[]| |[] m e] Hn Hr; try discriminate; eexists; reflexivity.
Qed.

(** [<] and [>=] never hold together. *)
Lemma lt_ge_exclusive : forall p s : float,
  Py.lt p s = true -> Py.ge p s = false.
Proof.
  intros p s H. unfold Py.lt, Py.ge in *.
  apply ltb_true_iff in H. destruct H as (Hp & Hs & H).
  destruct (PrimFloat.leb s p) eqn:E; [|reflexivity].
  apply leb_true_iff in E. destruct E as (_ & _ & E). contradiction.
Qed.

(** One of them holds exactly when neither operand is NaN. *)
Lemma comparable_iff : forall p s : float,
  comparable p s = true <->
  PrimFloat.is_nan p = false /\ PrimFloat.is_nan s = false.
Proof.
  intros p s. unfold comparable, Py.lt, Py.ge. rewrite !is_nan_spec.
  rewrite orb_true_iff, ltb_true_iff, leb_true_iff. split.
  - intros [(Hp & Hs & _)|(Hs & Hp & _)]; split; assumption.
  - intros (Hp & Hs).
    destruct (SFcompare_rank _ _ Hp Hs) as [[_ H]|[[_ H]|[_ H]]].
    + left. repeat split; assumption.
    + right. repeat split; try assumption. rewrite H. apply lt3_irrefl.
    + right. repeat split; try assumption. apply lt3_asym. assumption.
Qed.

Lemma lt_nan_l : forall p s : float,
  PrimFloat.is_nan p = true -> Py.lt p s = false /\ Py.ge p s = false.
Proof.
  intros p s H. rewrite is_nan_spec in H. unfold Py.lt, Py.ge. split.
  - destruct (PrimFloat.ltb p s) eqn:E; [|reflexivity].
    apply ltb_true_iff in E. destruct E as (E & _). congruence.
  - destruct (PrimFloat.leb s p) eqn:E; [|reflexivity].
    apply leb_true_iff in E. destruct E as (_ & E & _). congruence.
Qed.

(** [==] implies [>=] and excludes [<]. *)
Lemma eq_ge : forall p s : float,
  PrimFloat.eqb p s = true -> Py.ge p s = true /\ Py.lt p s = false.
Proof.
  intros p s H. apply eqb_true_iff in H. destruct H as (Hp & Hs & H).
  assert (Py.ge p s = true) as Hge.
  { unfold Py.ge. apply leb_true_iff. repeat split; try assumption.
    rewrite H. apply lt3_irrefl. }
  split; [assumption|].
  destruct (Py.lt p s) eqn:E; [|reflexivity].
  apply lt_ge_exclusive in E. congruence.
Qed.

(** [p < s1] and [s1 <= s2] give [p < s2]. *)
Lemma lt_le_trans : forall p s1 s2 : float,
  Py.lt p s1 = true -> PrimFloat.leb s1 s2 = true -> Py.lt p s2 = true.
Proof.
  intros p s1 s2 H1 H2. unfold Py.lt in *.
  apply ltb_true_iff in H1. destruct H1 as (Hp & Hs1 & H1).
  apply leb_true_iff in H2. destruct H2 as (_ & Hs2 & H2).
  apply ltb_true_iff. repeat split; try assumption.
  destruct (SFcompare_rank _ _ Hs1 Hs2) as [[_ H]|[[_ H]|[_ H]]].
  - eapply lt3_trans; eassumption.
  - rewrite <- H. assumption.
  - contradiction.
Qed.

Lemma leb_not_nan : forall s1 s2 : float,
  PrimFloat.leb s1 s2 = true ->
  PrimFloat.is_nan s1 = false /\ PrimFloat.is_nan s2 = false.
Proof.
  intros s1 s2 H. apply leb_true_iff in H. rewrite !is_nan_spec. tauto.
Qed.

Lemma ltb_not_nan : forall s1 s2 : float,
  PrimFloat.ltb s1 s2 = true ->
  PrimFloat.is_nan s1 = false /\ PrimFloat.is_nan s2 = false.
Proof.
  intros s1 s2 H. apply ltb_true_iff in H. rewrite !is_nan_spec. tauto.
Qed.

(** Division by a zero: NaN when the numerator is zero or NaN, an infinity
    otherwise. *)
Lemma div_by_zero : forall a z : float,
  PrimFloat.is_zero z = true ->
  PrimFloat.is_nan (PrimFloat.div a z)
    = (PrimFloat.is_nan a || PrimFloat.is_zero a)%bool /\
  PrimFloat.is_infinity (PrimFloat.div a z)
    = negb (PrimFloat.is_nan a || PrimFloat.is_zero a).
Proof.
  intros a z Hz. unfold PrimFloat.is_zero in Hz.
  apply eqb_true_iff in Hz. destruct Hz as (Hn & _ & Hr).
  change (rank (Prim2SF zero)) with (0, 0, 0) in Hr.
  destruct (rank_zero _ Hn Hr) as [sz Ez].
  assert (Prim2SF (PrimFloat.div a z) = SF64div (Prim2SF a) (S754_zero sz)) as Hd
    by (rewrite div_spec, Ez; reflexivity).
  assert (PrimFloat.is_zero a = match Prim2SF a with S754_zero _ => true | _ => false end)
    as Hza.
  { unfold PrimFloat.is_zero.
    destruct (PrimFloat.eqb a zero) eqn:E.
    - apply eqb_true_iff in E. destruct E as (Ha & _ & E).
      change (rank (Prim2SF zero)) with (0, 0, 0) in E.
      destruct (rank_zero _ Ha E) as [sa Ea]. rewrite Ea. reflexivity.
    - destruct (Prim2SF a) eqn:Ea; try reflexivity.
      assert (PrimFloat.eqb a zero = true) as C
        by (apply eqb_true_iff; rewrite Ea; repeat split).
      congruence. }
  assert (forall f, PrimFloat.is_infinity f
            = match Prim2SF f with S754_infinity _ => true | _ => false end) as Hinf.
  { intros f. unfold PrimFloat.is_infinity.
    destruct (PrimFloat.eqb (abs f) infinity) eqn:E.
    - apply eqb_true_iff in E. destruct E as (Ha & _ & E).
      rewrite abs_spec in Ha, E.
      change (rank (Prim2SF infinity)) with (2, 0, 0) in E.
      destruct (Prim2SF f) as [s|s| |s m e]; cbn in *; try discriminate; reflexivity.
    - destruct (Prim2SF f) as [s|s| |s m e] eqn:Ef; try reflexivity.
      assert (PrimFloat.eqb (abs f) infinity = true) as C
        by (apply eqb_true_iff; rewrite abs_spec, Ef; repeat split).
      congruence. }
  rewrite Hinf, Hza, !is_nan_spec, Hd.
  destruct (Prim2SF a) as [s|s| |s m e]; split; reflexivity.
Qed.

End IEEE_facts.

(** ** The number of iterations *)

Lemma n_iters_succ : n_iters = S (Z.to_nat 9999).
Proof. vm_compute. reflexivity. Qed.

(** ** One trial's effect on the tally *)
Section Tally_facts.

Import IEEE_facts.
Local Open Scope Z_scope.

Variables (t : truth) (p s : float) (c : tally).

Lemma tally_trial_lt :
  Py.lt p s = true ->
  tally_trial t p s c =
  match t with
  | positive =>
      {| true_positives := true_positives c + 1; false_positives := false_positives c;
         true_negatives := true_negatives c; false_negatives := false_negatives c |}
  | negative =>
      {| true_positives := true_positives c; false_positives := false_positives c + 1;
         true_negatives := true_negatives c; false_negatives := false_negatives c |}
  end.
Proof.
  intros H. unfold tally_trial. rewrite H, (lt_ge_exclusive _ _ H).
  destruct t; reflexivity.
Qed.

Lemma tally_trial_ge :
  Py.ge p s = true ->
  tally_trial t p s c =
  match t with
  | positive =>
      {| true_positives := true_positives c; false_positives := false_positives c;
         true_negatives := true_negatives c; false_negatives := false_negatives c + 1 |}
  | negative =>
      {| true_positives := true_positives c; false_positives := false_positives c;
         true_negatives := true_negatives c + 1; false_negatives := false_negatives c |}
  end.
Proof.
  intros H. unfold tally_trial.
  assert (Py.lt p s = false) as Hlt.
  { destruct (Py.lt p s) eqn:E; [|reflexivity].
    apply lt_ge_exclusive in E. congruence. }
  rewrite H, Hlt. destruct t; reflexivity.
Qed.

(** A p-value that neither comparison accepts leaves all four counters as
    they were. *)
Lemma tally_trial_incomparable :
  comparable p s = false -> tally_trial t p s c = c.
Proof.
  unfold comparable. intros H. apply orb_false_iff in H. destruct H as [H1 H2].
  unfold tally_trial. rewrite H1, H2. destruct t; reflexivity.
Qed.

Lemma tally_trial_bumps :
  comparable p s = true -> bumps_one c (tally_trial t p s c).
Proof.
  unfold comparable. intros H. apply orb_true_iff in H. destruct H as [H|H].
  - rewrite (tally_trial_lt H). destruct t; constructor.
  - rewrite (tally_trial_ge H). destruct t; constructor.
Qed.

Lemma tally_trial_total :
  total (tally_trial t p s c) = total c + (if comparable p s then 1 else 0).
Proof.
  destruct (comparable p s) eqn:E.
  - destruct (tally_trial_bumps E); unfold total; cbn; lia.
  - rewrite (tally_trial_incomparable E). lia.
Qed.

Lemma tally_trial_rejections :
  rejections (tally_trial t p s c) = rejections c + (if Py.lt p s then 1 else 0).
Proof.
  destruct (Py.lt p s) eqn:E.
  - rewrite (tally_trial_lt E). destruct t; unfold rejections; cbn; lia.
  - destruct (Py.ge p s) eqn:E'.
    + rewrite (tally_trial_ge E'). destruct t; unfold rejections; cbn; lia.
    + rewrite tally_trial_incomparable by (unfold comparable; rewrite E, E'; reflexivity).
      lia.
Qed.

Lemma tally_trial_acceptances :
  acceptances (tally_trial t p s c) = acceptances c + (if Py.ge p s then 1 else 0).
Proof.
  destruct (Py.ge p s) eqn:E.
  - rewrite (tally_trial_ge E). destruct t; unfold acceptances; cbn; lia.
  - destruct (Py.lt p s) eqn:E'.
    + rewrite (tally_trial_lt E'). destruct t; unfold acceptances; cbn; lia.
    + rewrite tally_trial_incomparable by (unfold comparable; rewrite E, E'; reflexivity).
      lia.
Qed.

(** No counter ever goes down, and none moves by more than one. *)
Lemma tally_trial_monotone :
  let c' := tally_trial t p s c in
  true_positives c <= true_positives c' <= true_positives c + 1 /\
  false_positives c <= false_positives c' <= false_positives c + 1 /\
  true_negatives c <= true_negatives c' <= true_negatives c + 1 /\
  false_negatives c <= false_negatives c' <= false_negatives c + 1.
Proof.
  cbv zeta. destruct (comparable p s) eqn:E.
  - destruct (tally_trial_bumps E); cbn; lia.
  - rewrite (tally_trial_incomparable E). lia.
Qed.

(** True positives and the number of tallied ground-truth positives. *)
Lemma tally_trial_true_positives :
  true_positives (tally_trial t p s c) =
  true_positives c + (if truth_eqb t positive && Py.lt p s then 1 else 0).
Proof.
  destruct (Py.lt p s) eqn:E.
  - rewrite (tally_trial_lt E). destruct t; cbn; lia.
  - rewrite andb_false_r. destruct (Py.ge p s) eqn:E'.
    + rewrite (tally_trial_ge E'). destruct t; cbn; lia.
    + rewrite tally_trial_incomparable by (unfold comparable; rewrite E, E'; reflexivity).
      lia.
Qed.

Lemma tally_trial_positives :
  true_positives (tally_trial t p s c) + false_negatives (tally_trial t p s c) =
  true_positives c + false_negatives c
  + (if truth_eqb t positive && comparable p s then 1 else 0).
Proof.
  destruct (comparable p s) eqn:E.
  - pose proof E as E0. unfold comparable in E. apply orb_true_iff in E.
    destruct E as [H|H].
    + rewrite (tally_trial_lt H). destruct t; cbn; lia.
    + rewrite (tally_trial_ge H). destruct t; cbn; lia.
  - rewrite (tally_trial_incomparable E), andb_false_r. lia.
Qed.

End Tally_facts.

(** ** The loop *)
Section Run_facts.

Context {L : Library} (G : Globals).
Variable draw : nat -> rng -> truth * list float * rng.
Variable signif_level : float.

Local Abbreviation run := (run_trials G draw signif_level).

Lemma run_trials_succ : forall n st0,
  run (S n) st0 = loop_body G draw signif_level (run n st0) n.
Proof.
  intros n st0. unfold run_trials. rewrite seq_S, fold_left_app. reflexivity.
Qed.

(** The tally after trial [n] is the tally before it, updated with the truth
    and the p-value of trial [n]. *)
Lemma tally_succ : forall n st0,
  fst (run (S n) st0) =
  tally_trial (trial_truth draw n) (trial_pvalue G draw n) signif_level
              (fst (run n st0)).
Proof.
  intros n st0. rewrite run_trials_succ.
  unfold loop_body, trial_truth, trial_pvalue, trial_sample.
  destruct (draw n (seed (313 + Z.of_nat n))) as [[t x] st']. reflexivity.
Qed.

(** The generator state after trial [n] is the one its own draws leave. *)
Lemma state_succ : forall n st0,
  snd (run (S n) st0) = snd (draw n (seed (313 + Z.of_nat n))).
Proof.
  intros n st0. rewrite run_trials_succ. unfold loop_body.
  destruct (draw n (seed (313 + Z.of_nat n))) as [[t x] st']. reflexivity.
Qed.

(** The tally is a fold over the trial indices in which the generator state
    no longer appears. *)
Lemma tally_pure : forall n st0,
  fst (run n st0) =
  fold_left (fun c i => tally_trial (trial_truth draw i) (trial_pvalue G draw i)
                                    signif_level c)
            (seq 0 n) zero_tally.
Proof.
  induction n as [|n IH]; intros st0.
  - reflexivity.
  - rewrite tally_succ, IH, seq_S, fold_left_app. reflexivity.
Qed.

Lemma tally_independent_of_state : forall n st0 st0',
  fst (run n st0) = fst (run n st0').
Proof. intros n st0 st0'. rewrite !tally_pure. reflexivity. Qed.

Lemma evaluate_outcome : forall st0,
  fst (evaluate G draw signif_level st0) = metrics (fst (run n_iters st0)).
Proof.
  intros st0. unfold evaluate. destruct (run n_iters st0). reflexivity.
Qed.

Lemma evaluate_state : forall st0,
  snd (evaluate G draw signif_level st0) = snd (run n_iters st0).
Proof.
  intros st0. unfold evaluate. destruct (run n_iters st0). reflexivity.
Qed.

Local Open Scope Z_scope.

(** The number of tallied trials is the number of trials with a comparable
    p-value. *)
Lemma total_counts_comparable : forall n st0,
  total (fst (run n st0)) =
  Z.of_nat (length (filter (fun i => comparable (trial_pvalue G draw i) signif_level)
                           (seq 0 n))).
Proof.
  induction n as [|n IH]; intros st0.
  - reflexivity.
  - rewrite tally_succ, tally_trial_total, IH, seq_S, filter_app, length_app.
    cbn [filter]. destruct (comparable _ _); cbn [length]; lia.
Qed.

Lemma total_le : forall n st0, total (fst (run n st0)) <= Z.of_nat n.
Proof.
  intros n st0. rewrite total_counts_comparable.
  pose proof (filter_length_le
                (fun i => comparable (trial_pvalue G draw i) signif_level) (seq 0 n)) as H.
  rewrite length_seq in H. lia.
Qed.

Lemma counters_nonneg : forall n st0,
  0 <= true_positives (fst (run n st0)) /\
  0 <= false_positives (fst (run n st0)) /\
  0 <= true_negatives (fst (run n st0)) /\
  0 <= false_negatives (fst (run n st0)).
Proof.
  induction n as [|n IH]; intros st0.
  - cbn. lia.
  - rewrite tally_succ.
    pose proof (tally_trial_monotone (trial_truth draw n) (trial_pvalue G draw n)
                  signif_level (fst (run n st0))) as M.
    cbv zeta in M. specialize (IH st0). lia.
Qed.

Lemma positives_nonneg : forall n st0,
  0 <= true_positives (fst (run n st0)) + false_negatives (fst (run n st0)).
Proof. intros n st0. pose proof (counters_nonneg n st0). lia. Qed.

(** Between two consecutive iterations no counter decreases. *)
Lemma counters_monotone : forall k st0,
  0 <= true_positives (fst (run k st0)) <= true_positives (fst (run (S k) st0)) /\
  0 <= false_positives (fst (run k st0)) <= false_positives (fst (run (S k) st0)) /\
  0 <= true_negatives (fst (run k st0)) <= true_negatives (fst (run (S k) st0)) /\
  0 <= false_negatives (fst (run k st0)) <= false_negatives (fst (run (S k) st0)).
Proof.
  intros k st0. pose proof (counters_nonneg k st0) as N.
  rewrite tally_succ.
  pose proof (tally_trial_monotone (trial_truth draw k) (trial_pvalue G draw k)
                signif_level (fst (run k st0))) as M.
  cbv zeta in M. lia.
Qed.

(** A trial with an incomparable p-value is missing from the total. *)
Lemma total_lt_of_incomparable : forall n st0 i,
  (i < n)%nat ->
  comparable (trial_pvalue G draw i) signif_level = false ->
  total (fst (run n st0)) < Z.of_nat n.
Proof.
  induction n as [|n IH]; intros st0 i Hi Hc.
  - inversion Hi.
  - rewrite tally_succ, tally_trial_total.
    destruct (Nat.eq_dec i n) as [E|E].
    + subst i. rewrite Hc. pose proof (total_le n st0). lia.
    + assert (i < n)%nat as Hi' by lia.
      specialize (IH st0 i Hi' Hc).
      destruct (comparable (trial_pvalue G draw n) signif_level); lia.
Qed.

Lemma true_positives_mono : forall k n st0,
  (k <= n)%nat ->
  true_positives (fst (run k st0)) <= true_positives (fst (run n st0)).
Proof.
  intros k n st0 H. induction H as [|n H IH].
  - lia.
  - pose proof (counters_monotone n st0). lia.
Qed.

(** If no trial has a comparable p-value the tally stays at zero. *)
Lemma no_comparable_trial : forall n st0,
  (forall i, (i < n)%nat -> comparable (trial_pvalue G draw i) signif_level = false) ->
  fst (run n st0) = zero_tally.
Proof.
  induction n as [|n IH]; intros st0 H.
  - reflexivity.
  - rewrite tally_succ, tally_trial_incomparable by auto. apply IH. auto.
Qed.

(** If no trial has a p-value below the level nothing is rejected. *)
Lemma no_rejection : forall n st0,
  (forall i, (i < n)%nat -> Py.lt (trial_pvalue G draw i) signif_level = false) ->
  rejections (fst (run n st0)) = 0.
Proof.
  induction n as [|n IH]; intros st0 H.
  - reflexivity.
  - rewrite tally_succ, tally_trial_rejections, IH, H by auto. reflexivity.
Qed.

Lemma total_all_comparable : forall n st0,
  (forall i, (i < n)%nat -> comparable (trial_pvalue G draw i) signif_level = true) ->
  total (fst (run n st0)) = Z.of_nat n.
Proof.
  induction n as [|n IH]; intros st0 H.
  - reflexivity.
  - rewrite tally_succ, tally_trial_total, IH, H by auto. lia.
Qed.

End Run_facts.

(** ** The two notebook functions as instances of the loop *)
Section Instances.

Context {L : Library} (G : Globals).

Lemma calc_outcome : forall nsamples signif_level p_positive st0,
  fst (Part000.calc_precision_recall G nsamples signif_level p_positive st0) =
  metrics (fst (run_trials G (Part000.draw G nsamples p_positive) signif_level
                           n_iters st0)).
Proof. intros. exact (evaluate_outcome G _ _ _). Qed.

Lemma calc_state : forall nsamples signif_level p_positive st0,
  snd (Part000.calc_precision_recall G nsamples signif_level p_positive st0) =
  snd (run_trials G (Part000.draw G nsamples p_positive) signif_level n_iters st0).
Proof. intros. exact (evaluate_state G _ _ _). Qed.

Lemma lesson1_outcome : forall nsamples signif_level st0,
  fst (Lesson1.calc_precision_recall G nsamples signif_level st0) =
  metrics (fst (run_trials G (Lesson1.draw G nsamples) signif_level n_iters st0)).
Proof. intros. exact (evaluate_outcome G _ _ _). Qed.

Lemma lesson1_state : forall nsamples signif_level st0,
  snd (Lesson1.calc_precision_recall G nsamples signif_level st0) =
  snd (run_trials G (Lesson1.draw G nsamples) signif_level n_iters st0).
Proof. intros. exact (evaluate_state G _ _ _). Qed.

End Instances.

(** The ground truth and the sample of a trial, in each notebook. *)
Lemma part000_trial {L : Library} (G : Globals)
  (nsamples : nat) (p_positive : float) (i : nat) :
  let st := seed (313 + Z.of_nat i) in
  let u := fst (rand st) in
  let scale := pow (true_variance G) 0.5 in
  trial_truth (Part000.draw G nsamples p_positive) i
    = (if Py.lt u p_positive then positive else negative) /\
  trial_sample (Part000.draw G nsamples p_positive) i
    = (if Py.lt u p_positive
       then fst (norm_rvs (true_mean G) scale nsamples (snd (rand st)))
       else fst (norm_rvs (reference_mean G) scale nsamples (snd (rand st)))).
Proof.
  cbv zeta. unfold trial_truth, trial_sample, Part000.draw.
  destruct (rand (seed (313 + Z.of_nat i))) as [u st1]. cbn [fst snd].
  destruct (Py.lt u p_positive).
  - destruct (norm_rvs (true_mean G) (pow (true_variance G) 0.5) nsamples st1)
      as [x st2]. split; reflexivity.
  - destruct (norm_rvs (reference_mean G) (pow (true_variance G) 0.5) nsamples st1)
      as [x st2]. split; reflexivity.
Qed.

Lemma lesson1_trial {L : Library} (G : Globals) (nsamples : nat) (i : nat) :
  let even := (Z.of_nat i mod 2 =? 0)%Z in
  trial_truth (Lesson1.draw G nsamples) i = (if even then positive else negative) /\
  trial_sample (Lesson1.draw G nsamples) i =
    map (fun v => PrimFloat.add (PrimFloat.mul v (pow (true_variance G) 0.5))
                                (if even then true_mean G else reference_mean G))
        (fst (randn nsamples (seed (313 + Z.of_nat i)))).
Proof.
  cbv zeta. unfold trial_truth, trial_sample, Lesson1.draw.
  destruct (Z.of_nat i mod 2 =? 0)%Z;
    destruct (randn nsamples (seed (313 + Z.of_nat i))) as [z st1];
    split; reflexivity.
Qed.

(** ** The metrics *)
Section Metrics_facts.

Local Open Scope Z_scope.

(** [metrics] raises exactly when one of the two denominators is zero. *)
Lemma metrics_spec : forall c : tally,
  metrics c =
  if (true_positives c + false_positives c =? 0)
     || (true_positives c + false_negatives c =? 0)
  then Py.Raise Py.ZeroDivisionError
  else Py.Return
         {| counts := c;
            precision := PrimFloat.div (Py.float_of_int (true_positives c))
                           (Py.float_of_int (true_positives c + false_positives c));
            recall := PrimFloat.div (Py.float_of_int (true_positives c))
                        (Py.float_of_int (true_positives c + false_negatives c)) |}.
Proof.
  intros c. unfold metrics, Py.truediv.
  destruct (true_positives c + false_positives c =? 0);
    destruct (true_positives c + false_negatives c =? 0); reflexivity.
Qed.

Lemma metrics_counts : forall c r, metrics c = Py.Return r -> counts r = c.
Proof.
  intros c r. rewrite metrics_spec.
  destruct (_ || _); [discriminate|]. intros H. inversion H. reflexivity.
Qed.

Lemma metrics_raises : forall c : tally,
  true_positives c + false_positives c = 0 \/
  true_positives c + false_negatives c = 0 ->
  metrics c = Py.Raise Py.ZeroDivisionError.
Proof.
  intros c H. rewrite metrics_spec.
  destruct H as [H|H]; rewrite H; cbn [Z.eqb orb]; [|rewrite orb_true_r]; reflexivity.
Qed.

Lemma metrics_returns : forall c : tally,
  0 < true_positives c -> 0 <= false_positives c -> 0 <= false_negatives c ->
  exists r, metrics c = Py.Return r /\ counts r = c.
Proof.
  intros c H1 H2 H3. rewrite metrics_spec.
  replace (true_positives c + false_positives c =? 0) with false
    by (symmetry; apply Z.eqb_neq; lia).
  replace (true_positives c + false_negatives c =? 0) with false
    by (symmetry; apply Z.eqb_neq; lia).
  eexists. split; reflexivity.
Qed.

End Metrics_facts.

(** ** The function on an integer sample size *)
Section Sized_facts.

Context {L : Library} (G : Globals).
Variables (signif_level p_positive : float).

Local Open Scope Z_scope.

(** From a size that is not negative the draw cannot fail, and it is the
    draw of [Part000.draw]. *)
Lemma draw_sized_nonneg : forall (nsamples : Z) (i : nat) (st : rng),
  0 <= nsamples ->
  Part000.draw_sized G nsamples p_positive i st
  = Py.Return (Part000.draw G (Z.to_nat nsamples) p_positive i st).
Proof.
  intros ns i st H. unfold Part000.draw_sized, Part000.draw, Part000.norm_rvs_sized.
  replace (ns <? 0) with false by (symmetry; apply Z.ltb_ge; exact H).
  destruct (rand st) as [u st1]. destruct (Py.lt u p_positive); cbn [Py.bind].
  - destruct (norm_rvs (true_mean G) (pow (true_variance G) 0.5) (Z.to_nat ns) st1).
    reflexivity.
  - destruct (norm_rvs (reference_mean G) (pow (true_variance G) 0.5) (Z.to_nat ns) st1).
    reflexivity.
Qed.

(** From a negative size the draw fails in [norm.rvs], whatever the uniform
    value was. *)
Lemma draw_sized_negative : forall (nsamples : Z) (i : nat) (st : rng),
  nsamples < 0 ->
  Part000.draw_sized G nsamples p_positive i st = Py.Raise Py.ValueError.
Proof.
  intros ns i st H. unfold Part000.draw_sized, Part000.norm_rvs_sized.
  replace (ns <? 0) with true by (symmetry; apply Z.ltb_lt; exact H).
  destruct (rand st) as [u st1]. destruct (Py.lt u p_positive); reflexivity.
Qed.

Lemma run_trials_sized_succ : forall (nsamples : Z) (n : nat) (st0 : rng),
  Part000.run_trials_sized G nsamples signif_level p_positive (S n) st0 =
  Part000.loop_body_sized G nsamples signif_level p_positive
    (Part000.run_trials_sized G nsamples signif_level p_positive n st0) n.
Proof.
  intros ns n st0. unfold Part000.run_trials_sized.
  rewrite seq_S, fold_left_app. reflexivity.
Qed.

Lemma run_trials_sized_nonneg : forall (nsamples : Z) (n : nat) (st0 : rng),
  0 <= nsamples ->
  Part000.run_trials_sized G nsamples signif_level p_positive n st0 =
  Py.Return (run_trials G (Part000.draw G (Z.to_nat nsamples) p_positive)
                        signif_level n st0).
Proof.
  intros ns n st0 H. induction n as [|n IH].
  - reflexivity.
  - rewrite run_trials_sized_succ, IH, run_trials_succ.
    unfold Part000.loop_body_sized, loop_body. cbn [Py.bind].
    rewrite (draw_sized_nonneg ns n _ H). cbn [Py.bind].
    destruct (Part000.draw G (Z.to_nat ns) p_positive n (seed (313 + Z.of_nat n)))
      as [[t x] st']. reflexivity.
Qed.

(** With a negative size the first pass raises, and no later pass is run. *)
Lemma run_trials_sized_negative : forall (nsamples : Z) (n : nat) (st0 : rng),
  nsamples < 0 ->
  Part000.run_trials_sized G nsamples signif_level p_positive (S n) st0 =
  Py.Raise Py.ValueError.
Proof.
  intros ns n st0 H. induction n as [|n IH].
  - unfold Part000.run_trials_sized. cbn [seq fold_left].
    unfold Part000.loop_body_sized. cbn [Py.bind].
    rewrite (draw_sized_negative ns 0 _ H). reflexivity.
  - rewrite run_trials_sized_succ, IH. reflexivity.
Qed.

(** The whole loop: the tally is the fold over the trials, the state the one
    the last trial leaves. *)
Lemma run_trials_n_iters : forall (draw : nat -> rng -> truth * list float * rng)
  (st0 : rng),
  run_trials G draw signif_level n_iters st0 =
  (fold_left (fun c i => tally_trial (trial_truth draw i) (trial_pvalue G draw i)
                                     signif_level c)
             (seq 0 n_iters) zero_tally,
   snd (draw (Z.to_nat 9999) (seed (313 + Z.of_nat (Z.to_nat 9999))))).
Proof.
  intros draw st0.
  rewrite (surjective_pairing (run_trials G draw signif_level n_iters st0)).
  rewrite tally_pure. apply f_equal.
  rewrite n_iters_succ. apply state_succ.
Qed.

Lemma calc_sized_of_return : forall (nsamples : Z) (st0 : rng) (c : tally) (st : rng),
  Part000.run_trials_sized G nsamples signif_level p_positive n_iters st0
    = Py.Return (c, st) ->
  Part000.calc_precision_recall_sized G nsamples signif_level p_positive st0 =
  (r <- metrics c ;; Py.Return (r, st)).
Proof.
  intros ns st0 c st H. unfold Part000.calc_precision_recall_sized. rewrite H.
  reflexivity.
Qed.

Lemma calc_sized_of_raise : forall (nsamples : Z) (st0 : rng) (e : Py.exn),
  Part000.run_trials_sized G nsamples signif_level p_positive n_iters st0
    = Py.Raise e ->
  Part000.calc_precision_recall_sized G nsamples signif_level p_positive st0 =
  Py.Raise e.
Proof.
  intros ns st0 e H. unfold Part000.calc_precision_recall_sized. rewrite H.
  reflexivity.
Qed.

Lemma calc_pair : forall (nsamples : nat) (st0 : rng) (c : tally) (st : rng),
  run_trials G (Part000.draw G nsamples p_positive) signif_level n_iters st0 = (c, st) ->
  Part000.calc_precision_recall G nsamples signif_level p_positive st0
  = (metrics c, st).
Proof.
  intros ns st0 c st H. unfold Part000.calc_precision_recall, evaluate. rewrite H.
  reflexivity.
Qed.

(** On a natural number the function is [Part000.calc_precision_recall]. *)
Lemma calc_sized_nat : forall (nsamples : nat) (st0 : rng),
  Part000.calc_precision_recall_sized G (Z.of_nat nsamples) signif_level p_positive st0 =
  (r <- fst (Part000.calc_precision_recall G nsamples signif_level p_positive st0) ;;
   Py.Return
     (r, snd (Part000.calc_precision_recall G nsamples signif_level p_positive st0))).
Proof.
  intros ns st0.
  pose proof (run_trials_sized_nonneg (Z.of_nat ns) n_iters st0 (Nat2Z.is_nonneg ns)) as R.
  rewrite Nat2Z.id in R.
  rewrite (surjective_pairing
             (run_trials G (Part000.draw G ns p_positive) signif_level n_iters st0)) in R.
  rewrite (calc_sized_of_return _ _ _ _ R).
  rewrite calc_outcome, calc_state. reflexivity.
Qed.

(** The divisions after the loop fail with [ZeroDivisionError] only, and
    only on a zero denominator. *)
Lemma metrics_failure : forall (S : Type) (c : tally) (st : S) (e : Py.exn),
  (r <- metrics c ;; Py.Return (r, st)) = Py.Raise e ->
  e = Py.ZeroDivisionError /\
  (true_positives c + false_positives c = 0 \/
   true_positives c + false_negatives c = 0).
Proof.
  intros S c st e. rewrite metrics_spec.
  destruct (true_positives c + false_positives c =? 0) eqn:E1.
  - cbn [orb Py.bind]. intros H. inversion H. split; [reflexivity|].
    left. apply Z.eqb_eq. exact E1.
  - destruct (true_positives c + false_negatives c =? 0) eqn:E2.
    + cbn [orb Py.bind]. intros H. inversion H. split; [reflexivity|].
      right. apply Z.eqb_eq. exact E2.
    + cbn [orb Py.bind]. discriminate.
Qed.

End Sized_facts.

(** ** The sample statistics *)
Section Statistics_facts.

Lemma len_nonneg : forall (A : Type) (x : list A), (0 <= Py.len x)%Z.
Proof. intros A x. unfold Py.len. lia. Qed.

(** With numpy's default [ddof = 0] the divisor of the variance is the
    number of observations. *)
Lemma std_default_divisor : forall x : list float,
  Np.std x 0 =
  PrimFloat.sqrt
    (PrimFloat.div
       (Np.sum (map (fun v => PrimFloat.mul (PrimFloat.sub v (Np.mean x))
                                             (PrimFloat.sub v (Np.mean x))) x))
       (Py.float_of_int (Py.len x))).
Proof.
  intros x. unfold Np.std, Np.var. rewrite map_map.
  replace (Z.max (Py.len x - 0) 0) with (Py.len x)
    by (pose proof (len_nonneg _ x); lia).
  reflexivity.
Qed.

End Statistics_facts.

(** ** Trials of the concrete library *)
Section Fixture_facts.

Lemma stuck_draw_eq : forall (nsamples : nat) (p : float),
  Part000.draw (L := Fixture.stuck) Notebook nsamples p = stuck_draw nsamples p.
Proof. reflexivity. Qed.

Lemma rejections_eq : forall c : tally,
  rejections c = (true_positives c + false_positives c)%Z.
Proof. reflexivity. Qed.

Lemma uniform_cases : forall st : Z,
  Fixture.uniform st = 0%float \/ Fixture.uniform st = 0.25%float \/
  Fixture.uniform st = 0.5%float \/ Fixture.uniform st = 0.75%float.
Proof.
  intros st. unfold Fixture.uniform.
  assert (0 <= st mod 4 < 4)%Z as B by (apply Z.mod_pos_bound; lia).
  assert (st mod 4 = 0 \/ st mod 4 = 1 \/ st mod 4 = 2 \/ st mod 4 = 3)%Z
    as [E|[E|[E|E]]] by lia; rewrite E.
  - left. reflexivity.
  - right; left. reflexivity.
  - right; right; left. reflexivity.
  - right; right; right. reflexivity.
Qed.

(** Every sample is constant: at [true_mean] in a positive trial, at
    [reference_mean] in a negative one. *)
Lemma stuck_trial : forall (nsamples : nat) (p : float) (i : nat),
  let u := Fixture.uniform (313 + Z.of_nat i) in
  trial_truth (L := Fixture.stuck) (stuck_draw nsamples p) i
    = (if Py.lt u p then positive else negative) /\
  trial_sample (L := Fixture.stuck) (stuck_draw nsamples p) i
    = repeat (if Py.lt u p then 2.82 else 2.93)%float nsamples.
Proof.
  intros nsamples p i u.
  unfold trial_truth, trial_sample, stuck_draw, Part000.draw.
  cbn [rand seed norm_rvs pow Fixture.stuck].
  fold u. destruct (Py.lt u p); cbn [fst snd].
  - split; [reflexivity|]. rewrite map_repeat. reflexivity.
  - split; [reflexivity|]. rewrite map_repeat. reflexivity.
Qed.

(** With two observations a positive trial has p-value 0 (t-statistic
    -infinity) and a negative trial has p-value NaN (t-statistic 0/0). *)
Lemma stuck_pvalue_two : forall (p : float) (i : nat),
  trial_pvalue (L := Fixture.stuck) Notebook (stuck_draw 2 p) i =
  if Py.lt (Fixture.uniform (313 + Z.of_nat i)) p then 0%float else nan.
Proof.
  intros p i. unfold trial_pvalue.
  rewrite (proj2 (stuck_trial 2 p i)).
  destruct (Py.lt (Fixture.uniform (313 + Z.of_nat i)) p); vm_compute; reflexivity.
Qed.

(** With one observation there are no degrees of freedom and every p-value
    is NaN. *)
Lemma stuck_pvalue_one : forall (p : float) (i : nat),
  trial_pvalue (L := Fixture.stuck) Notebook (stuck_draw 1 p) i = nan.
Proof.
  intros p i. unfold trial_pvalue.
  rewrite (proj2 (stuck_trial 1 p i)).
  destruct (Py.lt (Fixture.uniform (313 + Z.of_nat i)) p); vm_compute; reflexivity.
Qed.

Lemma uniform_below_one : forall st, Py.lt (Fixture.uniform st) 1 = true.
Proof.
  intros st. destruct (uniform_cases st) as [E|[E|[E|E]]]; rewrite E; reflexivity.
Qed.

Lemma uniform_not_below_zero : forall st, Py.lt (Fixture.uniform st) 0 = false.
Proof.
  intros st. destruct (uniform_cases st) as [E|[E|[E|E]]]; rewrite E; reflexivity.
Qed.

(** The first trial of a run with two observations and probability 0.5 is a
    true positive at every level above 0, so such a run returns a report. *)
Lemma stuck_run_returns : forall (signif_level : float) (st0 : Z),
  Py.lt 0 signif_level = true ->
  exists r,
    fst (Part000.calc_precision_recall (L := Fixture.stuck) Notebook 2
           signif_level 0.5 st0) = Py.Return r /\
    counts r = fst (run_trials (L := Fixture.stuck) Notebook (stuck_draw 2 0.5)
                               signif_level n_iters st0).
Proof.
  intros s st0 Hs. rewrite calc_outcome. rewrite stuck_draw_eq.
  pose proof (counters_nonneg (L := Fixture.stuck) Notebook (stuck_draw 2 0.5)
                s n_iters st0) as (_ & N2 & _ & N4).
  apply metrics_returns; try assumption.
  apply Z.lt_le_trans with
    (true_positives (fst (run_trials (L := Fixture.stuck) Notebook (stuck_draw 2 0.5)
                                     s 1 st0))).
  - rewrite tally_succ, tally_trial_true_positives, stuck_pvalue_two.
    rewrite (proj1 (stuck_trial 2 0.5 0)).
    change (Py.lt (Fixture.uniform (313 + Z.of_nat 0)) 0.5) with true.
    cbn iota. rewrite Hs. reflexivity.
  - apply true_positives_mono. rewrite n_iters_succ. lia.
Qed.

(** With two observations that differ every p-value is a number. *)
Lemma alternating_part000_pvalue : forall (p : float) (i : nat),
  PrimFloat.is_nan
    (trial_pvalue (L := alternating) Notebook
       (Part000.draw (L := alternating) Notebook 2 p) i) = false.
Proof.
  intros p i. unfold trial_pvalue.
  rewrite (proj2 (part000_trial (L := alternating) Notebook 2 p i)).
  destruct (Py.lt _ p); vm_compute; reflexivity.
Qed.

End Fixture_facts.

(** ** The claims *)

(** *** Tally invariant *)

(** With a comparable p-value at every trial, every trial moves exactly one
    counter, whatever the way the sample is drawn. *)
Lemma one_counter_per_trial {L : Library} (G : Globals)
  (draw : nat -> rng -> truth * list float * rng) (signif_level : float) (st0 : rng) :
  PrimFloat.is_nan signif_level = false ->
  forall n,
  forallb (fun i => negb (PrimFloat.is_nan (trial_pvalue G draw i))) (seq 0 n) = true ->
  (forall k, (k < n)%nat ->
     bumps_one (fst (run_trials G draw signif_level k st0))
               (fst (run_trials G draw signif_level (S k) st0))) /\
  total (fst (run_trials G draw signif_level n st0)) = Z.of_nat n.
Proof.
  intros Hs n Hp.
  assert (forall i, (i < n)%nat ->
            comparable (trial_pvalue G draw i) signif_level = true) as Hc.
  { intros i Hi. apply IEEE_facts.comparable_iff. split; [|assumption].
    rewrite forallb_forall in Hp.
    specialize (Hp i). rewrite in_seq in Hp.
    apply negb_true_iff, Hp. lia. }
  split.
  - intros k Hk. rewrite tally_succ. apply tally_trial_bumps. auto.
  - apply total_all_comparable. assumption.
Qed.

Lemma valid_config_level : forall nsamples signif_level p_positive,
  Part000.valid_config nsamples signif_level p_positive = true ->
  PrimFloat.is_nan signif_level = false.
Proof.
  intros n s p H. unfold Part000.valid_config in H.
  repeat (apply andb_true_iff in H; destruct H as [H ?]).
  match goal with
  | H : PrimFloat.ltb 0 s = true |- _ => apply IEEE_facts.ltb_not_nan in H; tauto
  end.
Qed.



(** The hypothesis on the p-values cannot be dropped while the generator is
    a parameter.  If it returned a constant sample -- numpy's does not, for
    two or more observations -- the trial would not be tallied: below, the
    trial of iteration 1 is ground-truth negative with sample
    [[2.93; 2.93]], its standard error is 0, its t-statistic 0/0 and its
    p-value NaN, and no counter moves. *)
Lemma constant_sample_is_not_tallied :
  Part000.valid_config 2 0.05 0.5 = true /\
  trial_truth (L := Fixture.stuck) (stuck_draw 2 0.5) 1 = negative /\
  trial_sample (L := Fixture.stuck) (stuck_draw 2 0.5) 1 = [2.93; 2.93]%float /\
  PrimFloat.is_nan (trial_pvalue (L := Fixture.stuck) Notebook (stuck_draw 2 0.5) 1)
    = true /\
  fst (run_trials (L := Fixture.stuck) Notebook (stuck_draw 2 0.5) 0.05 2 0%Z)
    = fst (run_trials (L := Fixture.stuck) Notebook (stuck_draw 2 0.5) 0.05 1 0%Z) /\
  total (fst (run_trials (L := Fixture.stuck) Notebook (stuck_draw 2 0.5) 0.05
                         n_iters 0%Z))
    <> Z.of_nat n_iters.
Proof.
  split; [vm_compute; reflexivity|].
  split; [vm_compute; reflexivity|].
  split; [vm_compute; reflexivity|].
  split; [vm_compute; reflexivity|].
  split; [vm_compute; reflexivity|].
  assert (total (fst (run_trials (L := Fixture.stuck) Notebook (stuck_draw 2 0.5)
                                 0.05 n_iters 0%Z)) < Z.of_nat n_iters)%Z as H.
  { apply total_lt_of_incomparable with (i := 1%nat).
    - rewrite n_iters_succ. apply Nat.lt_succ_r, Nat.leb_le. vm_compute. reflexivity.
    - vm_compute. reflexivity. }
  intros E. rewrite E in H. apply Z.lt_irrefl in H. exact H.
Qed.

(** *** The sample statistics of a trial *)

(** C2, as the code has it.  For every trial the standard deviation is the
    one numpy computes by default, with divisor n (the number of
    observations); the standard error is that standard deviation divided by
    sqrt(n); the t-statistic is (sample mean - reference mean) divided by the
    standard error; and the trial is tallied on the t-distribution function
    at that statistic with n - 1 degrees of freedom. *)
Theorem trial_statistics {L : Library} (G : Globals)
  (draw : nat -> rng -> truth * list float * rng) (signif_level : float)
  (n : nat) (st0 : rng) :
  let x := trial_sample draw n in
  let sq_dev := map (fun v => PrimFloat.mul (PrimFloat.sub v (Np.mean x))
                                            (PrimFloat.sub v (Np.mean x))) x in
  se x = PrimFloat.div
           (PrimFloat.sqrt (PrimFloat.div (Np.sum sq_dev) (Py.float_of_int (Py.len x))))
           (PrimFloat.sqrt (Py.float_of_int (Py.len x))) /\
  tstat G x = PrimFloat.div (PrimFloat.sub (Np.mean x) (reference_mean G)) (se x) /\
  fst (run_trials G draw signif_level (S n) st0) =
  tally_trial (trial_truth draw n) (t_cdf (tstat G x) (Py.len x - 1)) signif_level
              (fst (run_trials G draw signif_level n st0)).
Proof.
  intros x sq_dev. split; [|split].
  - unfold se. rewrite std_default_divisor. reflexivity.
  - reflexivity.
  - rewrite tally_succ. reflexivity.
Qed.

(** C2 as stated fails: on the sample [[1; 3]] numpy's default standard
    deviation is 1, the unbiased one is sqrt 2, and the standard error the
    code computes, 1/sqrt 2, is not the unbiased deviation over sqrt 2. *)
Lemma trial_statistics_counterexample :
  Np.std [1; 3]%float 0 = 1%float /\
  PrimFloat.eqb (std_unbiased [1; 3]%float) (PrimFloat.sqrt 2) = true /\
  PrimFloat.eqb (se [1; 3]%float)
    (PrimFloat.div (std_unbiased [1; 3]%float)
                   (Np.sqrt (Py.float_of_int (Py.len [1; 3]%float)))) = false /\
  se [1; 3]%float <>
    PrimFloat.div (std_unbiased [1; 3]%float)
                  (Np.sqrt (Py.float_of_int (Py.len [1; 3]%float))).
Proof.
  split; [vm_compute; reflexivity|].
  split; [vm_compute; reflexivity|].
  split; [vm_compute; reflexivity|].
  intros H.
  apply (f_equal (fun v => PrimFloat.eqb v (se [1; 3]%float))) in H.
  vm_compute in H. discriminate.
Qed.

(** *** The decision rule *)

(** C3.  A trial is decided "reject" (it is counted among the true or false
    positives) exactly when its p-value is strictly below the significance
    level; when the p-value equals the level the trial is counted among the
    true or false negatives. *)
Theorem reject_iff_pvalue_below_level {L : Library} (G : Globals)
  (draw : nat -> rng -> truth * list float * rng) (signif_level : float)
  (n : nat) (st0 : rng) :
  let before := fst (run_trials G draw signif_level n st0) in
  let after := fst (run_trials G draw signif_level (S n) st0) in
  let p := trial_pvalue G draw n in
  (rejections after = rejections before + 1 <-> Py.lt p signif_level = true)%Z /\
  (rejections after = rejections before <-> Py.lt p signif_level = false)%Z /\
  (PrimFloat.eqb p signif_level = true ->
   rejections after = rejections before /\
   acceptances after = acceptances before + 1)%Z.
Proof.
  intros before after p. unfold before, after, p.
  rewrite tally_succ, tally_trial_rejections, tally_trial_acceptances.
  split; [|split].
  - destruct (Py.lt _ _); split; intros; try reflexivity; try lia; discriminate.
  - destruct (Py.lt _ _); split; intros; try reflexivity; try lia; discriminate.
  - intros E. apply IEEE_facts.eq_ge in E. destruct E as [E1 E2].
    rewrite E1, E2. lia.
Qed.

(** *** Zero denominators *)

(** C4, as the code has it.  When tp+fp or tp+fn is zero after the trials the
    function raises [ZeroDivisionError] and reports nothing; otherwise it
    reports the tally with precision tp/(tp+fp) and recall tp/(tp+fn). *)
Theorem zero_denominator_raises {L : Library} (G : Globals)
  (nsamples : nat) (signif_level p_positive : float) (st0 : rng) :
  let c := fst (run_trials G (Part000.draw G nsamples p_positive) signif_level
                  n_iters st0) in
  fst (Part000.calc_precision_recall G nsamples signif_level p_positive st0) =
  if ((true_positives c + false_positives c =? 0)
      || (true_positives c + false_negatives c =? 0))%Z
  then Py.Raise Py.ZeroDivisionError
  else Py.Return
         {| counts := c;
            precision := PrimFloat.div (Py.float_of_int (true_positives c))
                           (Py.float_of_int (true_positives c + false_positives c));
            recall := PrimFloat.div (Py.float_of_int (true_positives c))
                        (Py.float_of_int (true_positives c + false_negatives c)) |}.
Proof.
  intros c. rewrite calc_outcome. apply metrics_spec.
Qed.

(** C4 as stated fails.  Over the valid configuration (2 samples, level
    0.05, probability 0) every trial of the constant generator is
    ground-truth negative with a NaN p-value: all counters stay at 0 and the
    run ends in [ZeroDivisionError].  With level 0 and probability 1 every
    trial is ground-truth positive with p-value 0, none is rejected, tp+fp
    is 0 while tp+fn is not, and the run ends in [ZeroDivisionError] too. *)
Lemma zero_denominator_counterexample :
  (Part000.valid_config 2 0.05 0 = true /\
   fst (run_trials (L := Fixture.stuck) Notebook (stuck_draw 2 0) 0.05 n_iters 0%Z)
     = zero_tally /\
   fst (Part000.calc_precision_recall (L := Fixture.stuck) Notebook 2 0.05 0 0%Z)
     = Py.Raise Py.ZeroDivisionError) /\
  (rejections (fst (run_trials (L := Fixture.stuck) Notebook (stuck_draw 2 1) 0
                               n_iters 0%Z)) = 0%Z /\
   fst (Part000.calc_precision_recall (L := Fixture.stuck) Notebook 2 0 1 0%Z)
     = Py.Raise Py.ZeroDivisionError).
Proof.
  assert (fst (run_trials (L := Fixture.stuck) Notebook (stuck_draw 2 0) 0.05
                          n_iters 0%Z) = zero_tally) as H0.
  { apply no_comparable_trial. intros i _.
    rewrite stuck_pvalue_two, uniform_not_below_zero. reflexivity. }
  assert (rejections (fst (run_trials (L := Fixture.stuck) Notebook (stuck_draw 2 1) 0
                                      n_iters 0%Z)) = 0%Z) as H1.
  { apply no_rejection. intros i _.
    rewrite stuck_pvalue_two, uniform_below_one. reflexivity. }
  split.
  - split; [vm_compute; reflexivity|]. split; [exact H0|].
    rewrite calc_outcome. rewrite stuck_draw_eq. rewrite H0. reflexivity.
  - split; [exact H1|].
    rewrite calc_outcome. rewrite stuck_draw_eq.
    apply metrics_raises. left. rewrite <- rejections_eq. exact H1.
Qed.

(** *** Configuration checks *)



(** *** Degenerate samples *)

(** C6, as the code has it.  For a trial whose standard error is zero the
    function raises nothing: the t-statistic is NaN when the sample mean
    minus the reference mean is zero or NaN and an infinity otherwise, that
    value is passed to the t-distribution function, and the loop tallies the
    trial on the resulting p-value and goes on. *)
Theorem zero_standard_error_is_not_signalled {L : Library} (G : Globals)
  (draw : nat -> rng -> truth * list float * rng) (signif_level : float)
  (n : nat) (st0 : rng) :
  PrimFloat.is_zero (se (trial_sample draw n)) = true ->
  let x := trial_sample draw n in
  let num := PrimFloat.sub (Np.mean x) (reference_mean G) in
  PrimFloat.is_nan (tstat G x) = (PrimFloat.is_nan num || PrimFloat.is_zero num)%bool /\
  PrimFloat.is_infinity (tstat G x) = negb (PrimFloat.is_nan num || PrimFloat.is_zero num) /\
  fst (run_trials G draw signif_level (S n) st0) =
  tally_trial (trial_truth draw n) (t_cdf (tstat G x) (Py.len x - 1)) signif_level
              (fst (run_trials G draw signif_level n st0)).
Proof.
  intros Hz x num.
  destruct (IEEE_facts.div_by_zero num (se x) Hz) as [Hnan Hinf].
  split; [exact Hnan|]. split; [exact Hinf|].
  rewrite tally_succ. reflexivity.
Qed.

(** The first trial of the constant generator has a zero standard error and
    an infinite t-statistic. *)
Lemma zero_standard_error_witness :
  PrimFloat.is_infinity
    (tstat Notebook (trial_sample (L := Fixture.stuck) (stuck_draw 2 0.5) 0)) = true.
Proof.
  refine (eq_trans (proj1 (proj2
    (@zero_standard_error_is_not_signalled Fixture.stuck Notebook (stuck_draw 2 0.5)
       0.05%float 0%nat 0%Z _))) _).
  - vm_compute. reflexivity.
  - vm_compute. reflexivity.
Defined.

(** C6 as stated fails.  The first trial of the run below is ground-truth
    positive with the constant sample [[2.82; 2.82]]: the standard error is
    0, the t-statistic is silently -infinity, the p-value 0, and the trial is
    counted as a true positive.  The second trial has a zero standard error
    and a NaN t-statistic and is silently left out.  The run then goes on to
    the end and returns a report. *)
Lemma zero_standard_error_counterexample :
  let x := trial_sample (L := Fixture.stuck) (stuck_draw 2 0.5) 0 in
  let y := trial_sample (L := Fixture.stuck) (stuck_draw 2 0.5) 1 in
  se x = 0%float /\
  tstat Notebook x = neg_infinity /\
  fst (run_trials (L := Fixture.stuck) Notebook (stuck_draw 2 0.5) 0.05 1 0%Z) =
    {| true_positives := 1; false_positives := 0;
       true_negatives := 0; false_negatives := 0 |} /\
  se y = 0%float /\
  PrimFloat.is_nan (tstat Notebook y) = true /\
  fst (run_trials (L := Fixture.stuck) Notebook (stuck_draw 2 0.5) 0.05 2 0%Z) =
    fst (run_trials (L := Fixture.stuck) Notebook (stuck_draw 2 0.5) 0.05 1 0%Z) /\
  exists r,
    fst (Part000.calc_precision_recall (L := Fixture.stuck) Notebook 2 0.05 0.5 0%Z)
      = Py.Return r.
Proof.
  cbv zeta.
  split; [vm_compute; reflexivity|].
  split; [vm_compute; reflexivity|].
  split; [vm_compute; reflexivity|].
  split; [vm_compute; reflexivity|].
  split; [vm_compute; reflexivity|].
  split; [vm_compute; reflexivity|].
  destruct (stuck_run_returns 0.05 0%Z eq_refl) as (r & Hr & _).
  exists r. exact Hr.
Qed.

(** *** Determinism *)

(** C7.  The outcome and the tally do not depend on the generator state the
    function is called in: the tally is a fold over the iteration indices in
    which trial [i] is computed from [seed (313 + i)] alone. *)
Theorem tally_is_deterministic {L : Library} (G : Globals)
  (nsamples : nat) (signif_level p_positive : float) (st0 st0' : rng) :
  let draw := Part000.draw G nsamples p_positive in
  fst (run_trials G draw signif_level n_iters st0) =
    fold_left (fun c i => tally_trial (trial_truth draw i) (trial_pvalue G draw i)
                                      signif_level c)
              (seq 0 n_iters) zero_tally /\
  fst (run_trials G draw signif_level n_iters st0) =
    fst (run_trials G draw signif_level n_iters st0') /\
  Part000.calc_precision_recall G nsamples signif_level p_positive st0 =
    Part000.calc_precision_recall G nsamples signif_level p_positive st0'.
Proof.
  intros draw. split; [|split].
  - apply tally_pure.
  - apply tally_independent_of_state.
  - rewrite (surjective_pairing
               (Part000.calc_precision_recall G nsamples signif_level p_positive st0)).
    rewrite (surjective_pairing
               (Part000.calc_precision_recall G nsamples signif_level p_positive st0')).
    rewrite !calc_outcome, !calc_state, n_iters_succ, !state_succ.
    rewrite (tally_independent_of_state G _ signif_level _ st0 st0').
    reflexivity.
Qed.

(** *** Monotonicity in the significance level *)

Lemma comparable_level : forall p s1 s2 : float,
  PrimFloat.leb s1 s2 = true -> comparable p s1 = comparable p s2.
Proof.
  intros p s1 s2 H. apply IEEE_facts.leb_not_nan in H. destruct H as [H1 H2].
  destruct (comparable p s1) eqn:E1.
  - apply IEEE_facts.comparable_iff in E1. symmetry.
    apply IEEE_facts.comparable_iff. tauto.
  - destruct (comparable p s2) eqn:E2; [|reflexivity].
    apply IEEE_facts.comparable_iff in E2.
    assert (comparable p s1 = true) by (apply IEEE_facts.comparable_iff; tauto).
    congruence.
Qed.

Lemma level_monotone {L : Library} (G : Globals)
  (draw : nat -> rng -> truth * list float * rng) (s1 s2 : float) (st1 st2 : rng) :
  PrimFloat.leb s1 s2 = true ->
  forall n,
  (rejections (fst (run_trials G draw s1 n st1))
     <= rejections (fst (run_trials G draw s2 n st2)) /\
   true_positives (fst (run_trials G draw s1 n st1))
     <= true_positives (fst (run_trials G draw s2 n st2)) /\
   true_positives (fst (run_trials G draw s1 n st1))
     + false_negatives (fst (run_trials G draw s1 n st1))
   = true_positives (fst (run_trials G draw s2 n st2))
     + false_negatives (fst (run_trials G draw s2 n st2)))%Z.
Proof.
  intros H. induction n as [|n IH].
  - cbn. lia.
  - rewrite !tally_succ, !tally_trial_rejections, !tally_trial_positives,
      !tally_trial_true_positives.
    rewrite (comparable_level (trial_pvalue G draw n) _ _ H).
    destruct (Py.lt (trial_pvalue G draw n) s1) eqn:E.
    + rewrite (IEEE_facts.lt_le_trans _ _ _ E H). lia.
    + rewrite andb_false_r.
      destruct (Py.lt (trial_pvalue G draw n) s2);
        destruct (truth_eqb (trial_truth draw n) positive); cbn [andb]; lia.
Qed.

Lemma recall_exact_le : forall c1 c2 : tally,
  (0 <= true_positives c1 + false_negatives c1)%Z ->
  (true_positives c1 <= true_positives c2)%Z ->
  (true_positives c1 + false_negatives c1
   = true_positives c2 + false_negatives c2)%Z ->
  (recall_exact c1 <= recall_exact c2)%Q.
Proof.
  intros c1 c2 H0 H1 H2. unfold recall_exact. rewrite <- H2.
  unfold Qdiv. apply Qmult_le_compat_r.
  - rewrite <- Zle_Qle. assumption.
  - apply Qinv_le_0_compat. change 0%Q with (inject_Z 0).
    rewrite <- Zle_Qle. assumption.
Qed.

(** C8.  Of two runs that differ only in the significance level, the one
    with the larger level rejects at least as many trials, has at least as
    many true positives over the same number of tallied ground-truth
    positives, and so has at least the recall of the other. *)
Theorem rejections_monotone_in_level {L : Library} (G : Globals)
  (nsamples : nat) (s1 s2 p_positive : float) (st1 st2 : rng) :
  PrimFloat.leb s1 s2 = true ->
  let draw := Part000.draw G nsamples p_positive in
  let c1 := fst (run_trials G draw s1 n_iters st1) in
  let c2 := fst (run_trials G draw s2 n_iters st2) in
  (rejections c1 <= rejections c2)%Z /\
  (true_positives c1 <= true_positives c2)%Z /\
  (true_positives c1 + false_negatives c1
   = true_positives c2 + false_negatives c2)%Z /\
  (recall_exact c1 <= recall_exact c2)%Q.
Proof.
  intros H. cbv zeta.
  destruct (level_monotone G (Part000.draw G nsamples p_positive) s1 s2 st1 st2 H
              n_iters) as (Hr & Ht & Hp).
  split; [exact Hr|]. split; [exact Ht|]. split; [exact Hp|].
  exact (recall_exact_le _ _ (positives_nonneg G _ s1 n_iters st1) Ht Hp).
Qed.

(** Levels 0.05 and 0.10 on the same run. *)
Lemma rejections_monotone_witness :
  (rejections
     (fst (run_trials (L := Fixture.stuck) Notebook
             (Part000.draw (L := Fixture.stuck) Notebook 2 0.5) 0.05 n_iters 0%Z))
   <= rejections
        (fst (run_trials (L := Fixture.stuck) Notebook
                (Part000.draw (L := Fixture.stuck) Notebook 2 0.5) 0.10 n_iters 0%Z)))%Z.
Proof.
  refine (proj1 (@rejections_monotone_in_level Fixture.stuck Notebook 2
                   0.05%float 0.10%float 0.5%float 0%Z 0%Z _)).
  vm_compute. reflexivity.
Defined.

(** *** Ground truth and sample of a trial *)

(** C9, as the code has it.  In both notebooks a trial starts by seeding the
    generator with 313 + iteration.

    In [part_000] one uniform value [u] is then drawn.  The trial is
    ground-truth positive exactly when [u < p_positive]; its sample is then
    [nsamples] normal deviates around [true_mean], and otherwise [nsamples]
    normal deviates around [reference_mean], with the same scale
    [true_variance ** 0.5] and from the generator state that follows the
    uniform draw.

    In the first lesson there is no [p_positive] and no uniform draw.  The
    trial is ground-truth positive exactly when the iteration number is
    even; its sample is [randn(nsamples)], drawn from the seeded state
    itself, scaled by [true_variance ** 0.5] and shifted by [true_mean] in a
    positive trial and by [reference_mean] in a negative one.

    In both, the loop tallies the trial with that ground truth and the
    p-value of that sample. *)
Theorem ground_truth_and_sample_of_a_trial {L : Library} (G : Globals)
  (nsamples : nat) (signif_level p_positive : float) (iteration : nat) (st0 : rng) :
  let st := seed (313 + Z.of_nat iteration) in
  let scale := pow (true_variance G) 0.5 in
  (let draw := Part000.draw G nsamples p_positive in
   let u := fst (rand st) in
   let loc := if Py.lt u p_positive then true_mean G else reference_mean G in
   let x := fst (norm_rvs loc scale nsamples (snd (rand st))) in
   (trial_truth draw iteration = positive <-> Py.lt u p_positive = true) /\
   (trial_truth draw iteration = negative <-> Py.lt u p_positive = false) /\
   trial_sample draw iteration = x /\
   fst (run_trials G draw signif_level (S iteration) st0) =
     tally_trial (if Py.lt u p_positive then positive else negative)
                 (pvalue G x) signif_level
                 (fst (run_trials G draw signif_level iteration st0))) /\
  (let draw := Lesson1.draw G nsamples in
   let even := (Z.of_nat iteration mod 2 =? 0)%Z in
   let loc := if even then true_mean G else reference_mean G in
   let x := map (fun v => PrimFloat.add (PrimFloat.mul v scale) loc)
                (fst (randn nsamples st)) in
   (trial_truth draw iteration = positive <-> even = true) /\
   (trial_truth draw iteration = negative <-> even = false) /\
   trial_sample draw iteration = x /\
   fst (run_trials G draw signif_level (S iteration) st0) =
     tally_trial (if even then positive else negative)
                 (pvalue G x) signif_level
                 (fst (run_trials G draw signif_level iteration st0))).
Proof.
  cbv zeta. split.
  - destruct (part000_trial G nsamples p_positive iteration) as [T S].
    cbv zeta in T, S.
    rewrite tally_succ. unfold trial_pvalue. rewrite T, S.
    destruct (Py.lt (fst (rand (seed (313 + Z.of_nat iteration)))) p_positive).
    + split; [split; reflexivity|]. split; [split; discriminate|].
      split; reflexivity.
    + split; [split; discriminate|]. split; [split; reflexivity|].
      split; reflexivity.
  - destruct (lesson1_trial G nsamples iteration) as [T S].
    cbv zeta in T, S.
    rewrite tally_succ. unfold trial_pvalue. rewrite T, S.
    destruct (Z.of_nat iteration mod 2 =? 0)%Z.
    + split; [split; reflexivity|]. split; [split; discriminate|].
      split; reflexivity.
    + split; [split; discriminate|]. split; [split; reflexivity|].
      split; reflexivity.
Qed.

(** C9 as stated fails for the function of the first lesson.  Whatever the
    library returns, its trial 0 is ground-truth positive and its trial 1
    ground-truth negative, and the sample of trial 1 is taken from the state
    [seed 314] itself: no uniform value has been drawn.  With the library
    of the examples, the uniform value that follows [seed 316] is 0, below
    the default probability 0.5 of [part_000], and trial 3 is negative all
    the same; the one that follows [seed 315] is 0.75, and trial 2 is
    positive. *)
Lemma ground_truth_counterexample :
  (forall (L : Library) (G : Globals) (nsamples : nat),
     trial_truth (Lesson1.draw G nsamples) 0 = positive /\
     trial_truth (Lesson1.draw G nsamples) 1 = negative /\
     trial_sample (Lesson1.draw G nsamples) 1 =
       map (fun v => PrimFloat.add (PrimFloat.mul v (pow (true_variance G) 0.5))
                                   (reference_mean G))
           (fst (randn nsamples (seed 314)))) /\
  fst (rand (Library := Fixture.stuck) (seed 316)) = 0%float /\
  ~ (trial_truth (Lesson1.draw (L := Fixture.stuck) Notebook 100) 3 = positive <->
     Py.lt (fst (rand (Library := Fixture.stuck) (seed 316))) 0.5 = true) /\
  fst (rand (Library := Fixture.stuck) (seed 315)) = 0.75%float /\
  ~ (trial_truth (Lesson1.draw (L := Fixture.stuck) Notebook 100) 2 = positive <->
     Py.lt (fst (rand (Library := Fixture.stuck) (seed 315))) 0.5 = true).
Proof.
  split.
  - intros L G nsamples.
    destruct (lesson1_trial G nsamples 0) as [T0 _].
    destruct (lesson1_trial G nsamples 1) as [T1 S1].
    split; [exact T0|]. split; [exact T1|]. exact S1.
  - split; [vm_compute; reflexivity|]. split.
    + rewrite (proj1 (lesson1_trial (L := Fixture.stuck) Notebook 100 3)).
      intros [_ H]. assert (negative = positive) as E by (apply H; vm_compute; reflexivity).
      discriminate E.
    + split; [vm_compute; reflexivity|].
      rewrite (proj1 (lesson1_trial (L := Fixture.stuck) Notebook 100 2)).
      intros [H _]. assert (false = true) as E by (apply H; reflexivity).
      discriminate E.
Qed.

(** *** NaN p-values *)

(** A trial with a NaN p-value changes none of the counters. *)
Lemma nan_pvalue_leaves_tally {L : Library} (G : Globals)
  (draw : nat -> rng -> truth * list float * rng) (signif_level : float)
  (n : nat) (st0 : rng) :
  PrimFloat.is_nan (trial_pvalue G draw n) = true ->
  Py.lt (trial_pvalue G draw n) signif_level = false /\
  Py.ge (trial_pvalue G draw n) signif_level = false /\
  fst (run_trials G draw signif_level (S n) st0)
    = fst (run_trials G draw signif_level n st0).
Proof.
  intros H. destruct (IEEE_facts.lt_nan_l _ signif_level H) as [H1 H2].
  split; [exact H1|]. split; [exact H2|].
  rewrite tally_succ. apply tally_trial_incomparable.
  unfold comparable. rewrite H1, H2. reflexivity.
Qed.

(** A run with such a trial ends with fewer tallied trials than iterations,
    and so does any report made from it. *)
Lemma nan_pvalue_total {L : Library} (G : Globals)
  (draw : nat -> rng -> truth * list float * rng) (signif_level : float)
  (st0 : rng) (i : nat) :
  (i < n_iters)%nat ->
  PrimFloat.is_nan (trial_pvalue G draw i) = true ->
  (total (fst (run_trials G draw signif_level n_iters st0)) < Z.of_nat n_iters)%Z /\
  (forall r, metrics (fst (run_trials G draw signif_level n_iters st0)) = Py.Return r ->
     (total (counts r) < Z.of_nat n_iters)%Z).
Proof.
  intros Hi H. destruct (IEEE_facts.lt_nan_l _ signif_level H) as [H1 H2].
  assert (total (fst (run_trials G draw signif_level n_iters st0)) < Z.of_nat n_iters)%Z
    as T.
  { apply total_lt_of_incomparable with (i := i); [exact Hi|].
    unfold comparable. rewrite H1, H2. reflexivity. }
  split; [exact T|].
  intros r Hr. apply metrics_counts in Hr. rewrite Hr. exact T.
Qed.

(** When every trial has a NaN p-value nothing is tallied and the first
    division after the loop fails. *)
Lemma all_pvalues_nan {L : Library} (G : Globals)
  (draw : nat -> rng -> truth * list float * rng) (signif_level : float) (st0 : rng) :
  (forall k, (k < n_iters)%nat -> PrimFloat.is_nan (trial_pvalue G draw k) = true) ->
  fst (run_trials G draw signif_level n_iters st0) = zero_tally /\
  metrics (fst (run_trials G draw signif_level n_iters st0))
    = Py.Raise Py.ZeroDivisionError.
Proof.
  intros H.
  assert (fst (run_trials G draw signif_level n_iters st0) = zero_tally) as Z.
  { apply no_comparable_trial. intros k Hk. unfold comparable.
    destruct (IEEE_facts.lt_nan_l _ signif_level (H k Hk)) as [H1 H2].
    rewrite H1, H2. reflexivity. }
  split; [exact Z|]. rewrite Z. reflexivity.
Qed.

(** A sample of at most one observation leaves no degree of freedom. *)
Lemma pvalue_without_freedom {L : Library} (G : Globals) (x : list float) :
  cdf_nan_without_freedom L -> (length x <= 1)%nat ->
  PrimFloat.is_nan (pvalue G x) = true.
Proof.
  intros C H. unfold pvalue. apply C. unfold Py.len. lia.
Qed.

Lemma part000_sample_length {L : Library} (G : Globals)
  (nsamples : nat) (p_positive : float) (i : nat) :
  returns_requested_size L ->
  length (trial_sample (Part000.draw G nsamples p_positive) i) = nsamples.
Proof.
  intros [R _]. rewrite (proj2 (part000_trial G nsamples p_positive i)).
  destruct (Py.lt _ _); apply R.
Qed.

Lemma lesson1_sample_length {L : Library} (G : Globals) (nsamples : nat) (i : nat) :
  returns_requested_size L ->
  length (trial_sample (Lesson1.draw G nsamples) i) = nsamples.
Proof.
  intros [_ R]. rewrite (proj2 (lesson1_trial G nsamples i)).
  rewrite length_map. apply R.
Qed.


Lemma stuck_library_properties :
  returns_requested_size Fixture.stuck /\ cdf_nan_without_freedom Fixture.stuck.
Proof.
  split; [split|].
  - intros loc scale n st. cbn [norm_rvs Fixture.stuck fst].
    rewrite length_map. apply repeat_length.
  - intros n st. cbn [randn Fixture.stuck fst]. apply repeat_length.
  - intros t df H. cbn [t_cdf Fixture.stuck]. unfold Fixture.student_cdf.
    replace (df <=? 0)%Z with true by (symmetry; apply Z.leb_le; exact H).
    rewrite orb_true_r. reflexivity.
Qed.



(** *** The function of the first lesson

    The tally, metrics and determinism properties do not depend on the way a
    trial is drawn; they hold for [Lesson1.calc_precision_recall] as well. *)

Lemma lesson1_tally_complete {L : Library} (G : Globals)
  (nsamples : nat) (signif_level : float) (st0 : rng) :
  PrimFloat.is_nan signif_level = false ->
  forallb (fun i => negb (PrimFloat.is_nan
                            (trial_pvalue G (Lesson1.draw G nsamples) i)))
          (seq 0 n_iters) = true ->
  total (fst (run_trials G (Lesson1.draw G nsamples) signif_level n_iters st0))
    = Z.of_nat n_iters.
Proof.
  intros Hs Hp.
  exact (proj2 (one_counter_per_trial G (Lesson1.draw G nsamples) signif_level st0
                  Hs n_iters Hp)).
Qed.

Lemma lesson1_zero_denominator_raises {L : Library} (G : Globals)
  (nsamples : nat) (signif_level : float) (st0 : rng) :
  let c := fst (run_trials G (Lesson1.draw G nsamples) signif_level n_iters st0) in
  (true_positives c + false_positives c = 0 \/
   true_positives c + false_negatives c = 0)%Z ->
  fst (Lesson1.calc_precision_recall G nsamples signif_level st0)
    = Py.Raise Py.ZeroDivisionError.
Proof.
  cbv zeta. intros H. rewrite lesson1_outcome. apply metrics_raises. exact H.
Qed.

Lemma lesson1_deterministic {L : Library} (G : Globals)
  (nsamples : nat) (signif_level : float) (st0 st0' : rng) :
  fst (Lesson1.calc_precision_recall G nsamples signif_level st0) =
  fst (Lesson1.calc_precision_recall G nsamples signif_level st0').
Proof.
  rewrite !lesson1_outcome.
  rewrite (tally_independent_of_state G _ signif_level _ st0 st0').
  reflexivity.
Qed.

Lemma lesson1_nan_trial_is_dropped {L : Library} (G : Globals)
  (nsamples : nat) (signif_level : float) (st0 : rng) (i : nat) :
  (i < n_iters)%nat ->
  PrimFloat.is_nan (trial_pvalue G (Lesson1.draw G nsamples) i) = true ->
  fst (run_trials G (Lesson1.draw G nsamples) signif_level (S i) st0)
    = fst (run_trials G (Lesson1.draw G nsamples) signif_level i st0) /\
  (forall r,
     fst (Lesson1.calc_precision_recall G nsamples signif_level st0) = Py.Return r ->
     (total (counts r) < Z.of_nat n_iters)%Z) /\
  ((nsamples <= 1)%nat -> returns_requested_size L -> cdf_nan_without_freedom L ->
   fst (Lesson1.calc_precision_recall G nsamples signif_level st0)
     = Py.Raise Py.ZeroDivisionError).
Proof.
  intros Hi H.
  destruct (nan_pvalue_leaves_tally G (Lesson1.draw G nsamples) signif_level i st0 H)
    as (_ & _ & H3).
  destruct (nan_pvalue_total G (Lesson1.draw G nsamples) signif_level st0 i Hi H)
    as [_ R].
  split; [exact H3|]. split.
  - intros r Hr. rewrite lesson1_outcome in Hr. exact (R r Hr).
  - intros Hn Hsize Hcdf. rewrite lesson1_outcome.
    apply (all_pvalues_nan G (Lesson1.draw G nsamples) signif_level st0).
    intros k _. unfold trial_pvalue. apply pvalue_without_freedom; [exact Hcdf|].
    rewrite (lesson1_sample_length G nsamples k Hsize). exact Hn.
Qed.

(** * Part III: further properties of the code *)

(** ** The four buckets *)

(** The effect of one pass of the four [if] statements on each counter. *)
Lemma tally_trial_counters (t : truth) (p s : float) (c : tally) :
  (true_positives (tally_trial t p s c)
     = true_positives c + (if truth_eqb t positive && Py.lt p s then 1 else 0) /\
   false_negatives (tally_trial t p s c)
     = false_negatives c + (if truth_eqb t positive && Py.ge p s then 1 else 0) /\
   false_positives (tally_trial t p s c)
     = false_positives c + (if truth_eqb t negative && Py.lt p s then 1 else 0) /\
   true_negatives (tally_trial t p s c)
     = true_negatives c + (if truth_eqb t negative && Py.ge p s then 1 else 0))%Z.
Proof.
  destruct (Py.lt p s) eqn:E.
  - rewrite (tally_trial_lt t p s c E), (IEEE_facts.lt_ge_exclusive _ _ E).
    destruct t; cbn; lia.
  - destruct (Py.ge p s) eqn:E'.
    + rewrite (tally_trial_ge t p s c E'). destruct t; cbn; lia.
    + rewrite tally_trial_incomparable
        by (unfold comparable; rewrite E, E'; reflexivity).
      rewrite !andb_false_r. lia.
Qed.

Lemma count_trials_succ : forall (f : nat -> bool) (n : nat),
  count_trials f (S n) = (count_trials f n + (if f n then 1 else 0))%Z.
Proof.
  intros f n. unfold count_trials.
  rewrite seq_S, filter_app, length_app. cbn [filter Nat.add].
  destruct (f n); cbn [length]; lia.
Qed.

(** X1.  After any number of iterations each counter is the number of
    iterations in its bucket: true positives are the ground-truth positive
    trials with [pvalue < signif_level], false negatives the positive trials
    with [pvalue >= signif_level], false positives and true negatives the
    same for the ground-truth negative trials.  This holds for both
    notebooks, whatever the library returns. *)
Theorem counters_count_their_buckets {L : Library} (G : Globals)
  (draw : nat -> rng -> truth * list float * rng) (signif_level : float)
  (n : nat) (st0 : rng) :
  let c := fst (run_trials G draw signif_level n st0) in
  let is_pos i := truth_eqb (trial_truth draw i) positive in
  let is_neg i := truth_eqb (trial_truth draw i) negative in
  let below i := Py.lt (trial_pvalue G draw i) signif_level in
  let not_below i := Py.ge (trial_pvalue G draw i) signif_level in
  true_positives c = count_trials (fun i => is_pos i && below i) n /\
  false_negatives c = count_trials (fun i => is_pos i && not_below i) n /\
  false_positives c = count_trials (fun i => is_neg i && below i) n /\
  true_negatives c = count_trials (fun i => is_neg i && not_below i) n.
Proof.
  cbv zeta. induction n as [|n IH].
  - repeat split.
  - destruct IH as (I1 & I2 & I3 & I4).
    rewrite tally_succ, !count_trials_succ.
    destruct (tally_trial_counters (trial_truth draw n) (trial_pvalue G draw n)
                signif_level (fst (run_trials G draw signif_level n st0)))
      as (T1 & T2 & T3 & T4).
    rewrite T1, T2, T3, T4, I1, I2, I3, I4. repeat split.
Qed.

(** ** The level and the counters *)

Lemma level_antitone {L : Library} (G : Globals)
  (draw : nat -> rng -> truth * list float * rng) (s1 s2 : float) (st1 st2 : rng) :
  PrimFloat.leb s1 s2 = true ->
  forall n,
  let c1 := fst (run_trials G draw s1 n st1) in
  let c2 := fst (run_trials G draw s2 n st2) in
  (false_positives c1 <= false_positives c2 /\
   true_negatives c2 <= true_negatives c1 /\
   false_negatives c2 <= false_negatives c1 /\
   total c1 = total c2)%Z.
Proof.
  intros H. cbv zeta. induction n as [|n IH].
  - cbn. lia.
  - rewrite !tally_succ, !tally_trial_total.
    rewrite (comparable_level (trial_pvalue G draw n) _ _ H).
    destruct (tally_trial_counters (trial_truth draw n) (trial_pvalue G draw n)
                s1 (fst (run_trials G draw s1 n st1))) as (_ & A2 & A3 & A4).
    destruct (tally_trial_counters (trial_truth draw n) (trial_pvalue G draw n)
                s2 (fst (run_trials G draw s2 n st2))) as (_ & B2 & B3 & B4).
    rewrite A2, A3, A4, B2, B3, B4. clear A2 A3 A4 B2 B3 B4.
    pose proof (comparable_level (trial_pvalue G draw n) _ _ H) as C.
    unfold comparable in C.
    destruct (Py.lt (trial_pvalue G draw n) s1) eqn:E1.
    + rewrite (IEEE_facts.lt_le_trans _ _ _ E1 H) in *.
      rewrite (IEEE_facts.lt_ge_exclusive _ _ E1).
      rewrite (IEEE_facts.lt_ge_exclusive _ _ (IEEE_facts.lt_le_trans _ _ _ E1 H)).
      lia.
    + destruct (Py.lt (trial_pvalue G draw n) s2) eqn:E2.
      * rewrite (IEEE_facts.lt_ge_exclusive _ _ E2).
        destruct (Py.ge (trial_pvalue G draw n) s1);
          destruct (truth_eqb (trial_truth draw n) positive);
          destruct (truth_eqb (trial_truth draw n) negative); cbn [andb]; lia.
      * cbn [orb] in C. rewrite C.
        destruct (Py.ge (trial_pvalue G draw n) s2);
          destruct (truth_eqb (trial_truth draw n) positive);
          destruct (truth_eqb (trial_truth draw n) negative); cbn [andb]; lia.
Qed.

(** X2.  Of two runs of [calc_precision_recall] that differ only in the
    significance level, the run with the larger level has at least as many
    false positives, at most as many true negatives and false negatives, and
    tallies the same number of trials: raising the level only moves trials
    from the "fail to reject" counters to the "reject" counters. *)
Theorem level_moves_trials_between_counters {L : Library} (G : Globals)
  (nsamples : nat) (s1 s2 p_positive : float) (st1 st2 : rng) :
  PrimFloat.leb s1 s2 = true ->
  let draw := Part000.draw G nsamples p_positive in
  let c1 := fst (run_trials G draw s1 n_iters st1) in
  let c2 := fst (run_trials G draw s2 n_iters st2) in
  (false_positives c1 <= false_positives c2 /\
   true_negatives c2 <= true_negatives c1 /\
   false_negatives c2 <= false_negatives c1 /\
   total c1 = total c2)%Z.
Proof.
  intros H. cbv zeta.
  exact (level_antitone G (Part000.draw G nsamples p_positive) s1 s2 st1 st2 H n_iters).
Qed.

Lemma level_moves_trials_witness :
  (total (fst (run_trials (L := Fixture.stuck) Notebook
                 (Part000.draw (L := Fixture.stuck) Notebook 2 0.5) 0.05 n_iters 0%Z))
   = total (fst (run_trials (L := Fixture.stuck) Notebook
                   (Part000.draw (L := Fixture.stuck) Notebook 2 0.5) 0.10 n_iters 0%Z)))%Z.
Proof.
  refine (proj2 (proj2 (proj2
    (@level_moves_trials_between_counters Fixture.stuck Notebook 2
       0.05%float 0.10%float 0.5%float 0%Z 0%Z _)))).
  vm_compute. reflexivity.
Defined.

(** ** NaN arguments *)

Lemma lt_nan_r : forall p s : float,
  PrimFloat.is_nan s = true -> Py.lt p s = false /\ Py.ge p s = false.
Proof.
  intros p s H. rewrite IEEE_facts.is_nan_spec in H. unfold Py.lt, Py.ge. split.
  - destruct (PrimFloat.ltb p s) eqn:E; [|reflexivity].
    apply IEEE_facts.ltb_true_iff in E. destruct E as (_ & E & _). congruence.
  - destruct (PrimFloat.leb s p) eqn:E; [|reflexivity].
    apply IEEE_facts.leb_true_iff in E. destruct E as (E & _). congruence.
Qed.

(** X3.  When [signif_level] is NaN no trial is ever tallied, whatever the
    library returns: all four counters are 0 after the loop and the function
    ends in [ZeroDivisionError] at the precision.  The same holds for the
    function of the first lesson. *)
Theorem nan_level_raises {L : Library} (G : Globals)
  (nsamples : nat) (signif_level p_positive : float) (st0 : rng) :
  PrimFloat.is_nan signif_level = true ->
  fst (run_trials G (Part000.draw G nsamples p_positive) signif_level n_iters st0)
    = zero_tally /\
  fst (Part000.calc_precision_recall G nsamples signif_level p_positive st0)
    = Py.Raise Py.ZeroDivisionError /\
  fst (Lesson1.calc_precision_recall G nsamples signif_level st0)
    = Py.Raise Py.ZeroDivisionError.
Proof.
  intros H.
  assert (forall draw, fst (run_trials G draw signif_level n_iters st0) = zero_tally)
    as Z.
  { intros draw. apply no_comparable_trial. intros i _.
    unfold comparable.
    destruct (lt_nan_r (trial_pvalue G draw i) signif_level H) as [H1 H2].
    rewrite H1, H2. reflexivity. }
  split; [apply Z|]. split.
  - rewrite calc_outcome, Z. reflexivity.
  - rewrite lesson1_outcome, Z. reflexivity.
Qed.

Lemma nan_level_witness :
  fst (Part000.calc_precision_recall (L := Fixture.stuck) Notebook 2 nan 0.5 0%Z)
    = Py.Raise Py.ZeroDivisionError.
Proof.
  refine (proj1 (proj2
    (@nan_level_raises Fixture.stuck Notebook 2 nan 0.5%float 0%Z _))).
  reflexivity.
Defined.

(** If no trial is ground-truth positive, neither the true positives nor the
    false negatives ever move. *)
Lemma no_positive_trial {L : Library} (G : Globals)
  (draw : nat -> rng -> truth * list float * rng) (signif_level : float) (st0 : rng) :
  forall n,
  (forall i, (i < n)%nat -> trial_truth draw i = negative) ->
  true_positives (fst (run_trials G draw signif_level n st0)) = 0%Z /\
  false_negatives (fst (run_trials G draw signif_level n st0)) = 0%Z.
Proof.
  induction n as [|n IH]; intros H.
  - split; reflexivity.
  - destruct IH as [I1 I2]; [auto|].
    rewrite tally_succ.
    destruct (tally_trial_counters (trial_truth draw n) (trial_pvalue G draw n)
                signif_level (fst (run_trials G draw signif_level n st0)))
      as (T1 & T2 & _).
    rewrite T1, T2, I1, I2, (H n) by auto. split; reflexivity.
Qed.

(** The trial of iteration [i] in closed form: the uniform draw decides the
    ground truth, and the sample is drawn from the state that follows it,
    around [true_mean] or around [reference_mean]. *)
(** X4.  When [p_positive] is NaN the comparison [rand() < p_positive] fails
    in every iteration: every trial is ground-truth negative, true positives
    and false negatives stay at 0, and the function ends in
    [ZeroDivisionError] -- at the precision if nothing was rejected, at the
    recall otherwise. *)
Theorem nan_probability_raises {L : Library} (G : Globals)
  (nsamples : nat) (signif_level p_positive : float) (st0 : rng) :
  PrimFloat.is_nan p_positive = true ->
  let draw := Part000.draw G nsamples p_positive in
  (forall i, trial_truth draw i = negative) /\
  true_positives (fst (run_trials G draw signif_level n_iters st0)) = 0%Z /\
  false_negatives (fst (run_trials G draw signif_level n_iters st0)) = 0%Z /\
  fst (Part000.calc_precision_recall G nsamples signif_level p_positive st0)
    = Py.Raise Py.ZeroDivisionError.
Proof.
  intros H. cbv zeta.
  assert (forall i, trial_truth (Part000.draw G nsamples p_positive) i = negative)
    as N.
  { intros i. rewrite (proj1 (part000_trial G nsamples p_positive i)).
    rewrite (proj1 (lt_nan_r _ p_positive H)). reflexivity. }
  destruct (no_positive_trial G (Part000.draw G nsamples p_positive) signif_level st0
              n_iters (fun i _ => N i)) as [Z1 Z2].
  split; [exact N|]. split; [exact Z1|]. split; [exact Z2|].
  rewrite calc_outcome. apply metrics_raises. right. rewrite Z1, Z2. reflexivity.
Qed.

Lemma nan_probability_witness :
  fst (Part000.calc_precision_recall (L := Fixture.stuck) Notebook 2 0.05 nan 0%Z)
    = Py.Raise Py.ZeroDivisionError.
Proof.
  refine (proj2 (proj2 (proj2
    (@nan_probability_raises Fixture.stuck Notebook 2 0.05%float nan 0%Z _)))).
  reflexivity.
Defined.

(** ** The probability of a positive ground truth *)

Lemma probability_monotone_upto {L : Library} (G : Globals)
  (nsamples : nat) (signif_level p1 p2 : float) (st1 st2 : rng) :
  PrimFloat.leb p1 p2 = true ->
  forall n,
  let c1 := fst (run_trials G (Part000.draw G nsamples p1) signif_level n st1) in
  let c2 := fst (run_trials G (Part000.draw G nsamples p2) signif_level n st2) in
  (true_positives c1 <= true_positives c2 /\
   false_negatives c1 <= false_negatives c2 /\
   false_positives c2 <= false_positives c1 /\
   true_negatives c2 <= true_negatives c1)%Z.
Proof.
  intros H. cbv zeta. induction n as [|n IH].
  - cbn. lia.
  - rewrite !tally_succ.
    destruct (tally_trial_counters
                (trial_truth (Part000.draw G nsamples p1) n)
                (trial_pvalue G (Part000.draw G nsamples p1) n) signif_level
                (fst (run_trials G (Part000.draw G nsamples p1) signif_level n st1)))
      as (A1 & A2 & A3 & A4).
    destruct (tally_trial_counters
                (trial_truth (Part000.draw G nsamples p2) n)
                (trial_pvalue G (Part000.draw G nsamples p2) n) signif_level
                (fst (run_trials G (Part000.draw G nsamples p2) signif_level n st2)))
      as (B1 & B2 & B3 & B4).
    rewrite A1, A2, A3, A4, B1, B2, B3, B4. clear A1 A2 A3 A4 B1 B2 B3 B4.
    unfold trial_pvalue.
    destruct (part000_trial G nsamples p1 n) as [T1 S1].
    destruct (part000_trial G nsamples p2 n) as [T2 S2].
    cbv zeta in T1, S1, T2, S2. rewrite T1, S1, T2, S2. clear T1 S1 T2 S2.
    destruct (Py.lt (fst (rand (seed (313 + Z.of_nat n)))) p1) eqn:E1.
    + rewrite (IEEE_facts.lt_le_trans _ _ _ E1 H). lia.
    + destruct (Py.lt (fst (rand (seed (313 + Z.of_nat n)))) p2).
      * cbn [truth_eqb andb].
        repeat match goal with
               | |- context [if ?b then _ else _] => destruct b
               end; lia.
      * lia.
Qed.

(** X5.  Of two runs that differ only in [p_positive], every trial that is
    ground-truth positive under the smaller probability is positive under
    the larger one, with the same sample; so the run with the larger
    probability has at least as many true positives and false negatives and
    at most as many false positives and true negatives. *)
Theorem probability_moves_trials_to_positive {L : Library} (G : Globals)
  (nsamples : nat) (signif_level p1 p2 : float) (st1 st2 : rng) :
  PrimFloat.leb p1 p2 = true ->
  let d1 := Part000.draw G nsamples p1 in
  let d2 := Part000.draw G nsamples p2 in
  let c1 := fst (run_trials G d1 signif_level n_iters st1) in
  let c2 := fst (run_trials G d2 signif_level n_iters st2) in
  (forall i, trial_truth d1 i = positive ->
             trial_truth d2 i = positive /\ trial_sample d2 i = trial_sample d1 i) /\
  (true_positives c1 <= true_positives c2 /\
   false_negatives c1 <= false_negatives c2 /\
   false_positives c2 <= false_positives c1 /\
   true_negatives c2 <= true_negatives c1)%Z.
Proof.
  intros H. cbv zeta. split.
  - intros i Hi.
    destruct (part000_trial G nsamples p1 i) as [T1 S1].
    destruct (part000_trial G nsamples p2 i) as [T2 S2].
    cbv zeta in T1, S1, T2, S2. rewrite T1 in Hi. rewrite T2, S1, S2.
    destruct (Py.lt (fst (rand (seed (313 + Z.of_nat i)))) p1) eqn:E1;
      [|discriminate].
    rewrite (IEEE_facts.lt_le_trans _ _ _ E1 H). split; reflexivity.
  - exact (probability_monotone_upto G nsamples signif_level p1 p2 st1 st2 H n_iters).
Qed.

Lemma probability_moves_trials_witness :
  (true_positives
     (fst (run_trials (L := Fixture.stuck) Notebook
             (Part000.draw (L := Fixture.stuck) Notebook 2 0.1) 0.05 n_iters 0%Z))
   <= true_positives
        (fst (run_trials (L := Fixture.stuck) Notebook
                (Part000.draw (L := Fixture.stuck) Notebook 2 0.5) 0.05 n_iters 0%Z)))%Z.
Proof.
  refine (proj1 (proj2
    (@probability_moves_trials_to_positive Fixture.stuck Notebook 2
       0.05%float 0.1%float 0.5%float 0%Z 0%Z _))).
  vm_compute. reflexivity.
Defined.

(** ** The cells that call the function *)

Lemma seq_calls_three {S : Type} (f1 f2 f3 : S -> Py.result report * S) (st : S)
  (rs : list report) :
  fst (seq_calls [f1; f2; f3] st) = Py.Return rs ->
  exists r1 r2 r3,
    rs = [r1; r2; r3] /\
    fst (f1 st) = Py.Return r1 /\
    fst (f2 (snd (f1 st))) = Py.Return r2 /\
    fst (f3 (snd (f2 (snd (f1 st))))) = Py.Return r3.
Proof.
  cbn [seq_calls].
  destruct (f1 st) as [[r1|e1] st1]; cbn [fst snd]; [|discriminate].
  destruct (f2 st1) as [[r2|e2] st2]; cbn [fst snd]; [|discriminate].
  destruct (f3 st2) as [[r3|e3] st3]; cbn [fst snd]; [|discriminate].
  intros H. inversion H. exists r1, r2, r3. repeat split.
Qed.

Lemma seq_calls_three_returns {S : Type} (f1 f2 f3 : S -> Py.result report * S)
  (st : S) (r1 r2 r3 : report) :
  fst (f1 st) = Py.Return r1 ->
  fst (f2 (snd (f1 st))) = Py.Return r2 ->
  fst (f3 (snd (f2 (snd (f1 st))))) = Py.Return r3 ->
  fst (seq_calls [f1; f2; f3] st) = Py.Return [r1; r2; r3].
Proof.
  cbn [seq_calls].
  destruct (f1 st) as [o1 st1]; cbn [fst snd]. intros H1. rewrite H1.
  destruct (f2 st1) as [o2 st2]; cbn [fst snd]. intros H2. rewrite H2.
  destruct (f3 st2) as [o3 st3]; cbn [fst snd]. intros H3. rewrite H3.
  reflexivity.
Qed.

Lemma part000_cell_levels_eq {L : Library} (G : Globals) (st : rng) :
  part000_cell_levels G st =
  seq_calls [Part000.calc_precision_recall G 100 0.01 0.5;
             Part000.calc_precision_recall G 100 0.05 0.5;
             Part000.calc_precision_recall G 100 0.10 0.5] st.
Proof. reflexivity. Qed.

Lemma part000_cell_probabilities_eq {L : Library} (G : Globals) (st : rng) :
  part000_cell_probabilities G st =
  seq_calls [Part000.calc_precision_recall G 100 0.05 0.5;
             Part000.calc_precision_recall G 100 0.05 0.1;
             Part000.calc_precision_recall G 100 0.05 0.01] st.
Proof. reflexivity. Qed.

Lemma part000_cell_default_eq {L : Library} (G : Globals) (st : rng) :
  part000_cell_default G st = Part000.calc_precision_recall G 100 0.05 0.5 st.
Proof. reflexivity. Qed.

(** A report carries the tally of the loop. *)
Lemma calc_report_counts {L : Library} (G : Globals)
  (nsamples : nat) (signif_level p_positive : float) (st0 : rng) (r : report) :
  fst (Part000.calc_precision_recall G nsamples signif_level p_positive st0)
    = Py.Return r ->
  counts r = fst (run_trials G (Part000.draw G nsamples p_positive) signif_level
                             n_iters st0).
Proof. intros H. rewrite calc_outcome in H. apply metrics_counts. exact H. Qed.

(** A run in which some trial is a true positive returns a report. *)
Lemma returns_if_true_positive {L : Library} (G : Globals)
  (nsamples : nat) (signif_level p_positive : float) (st0 : rng) (k : nat) :
  (k < n_iters)%nat ->
  trial_truth (Part000.draw G nsamples p_positive) k = positive ->
  Py.lt (trial_pvalue G (Part000.draw G nsamples p_positive) k) signif_level = true ->
  exists r,
    fst (Part000.calc_precision_recall G nsamples signif_level p_positive st0)
      = Py.Return r.
Proof.
  intros Hk Ht Hp. rewrite calc_outcome.
  pose proof (counters_nonneg G (Part000.draw G nsamples p_positive)
                signif_level n_iters st0) as (_ & N2 & _ & N4).
  destruct (metrics_returns
              (fst (run_trials G (Part000.draw G nsamples p_positive) signif_level
                               n_iters st0))) as (r & Hr & _); try assumption.
  - apply Z.lt_le_trans with
      (true_positives
         (fst (run_trials G (Part000.draw G nsamples p_positive) signif_level
                          (S k) st0))).
    + rewrite tally_succ, tally_trial_true_positives, Ht, Hp. cbn [truth_eqb andb].
      pose proof (counters_nonneg G (Part000.draw G nsamples p_positive)
                    signif_level k st0). lia.
    + apply true_positives_mono. lia.
  - exists r. exact Hr.
Qed.

(** X6.  When the cell of the three calls with levels 0.01, 0.05 and 0.10
    completes, its three reports are ordered: rejections and true positives
    do not decrease from one report to the next, and all three tally the
    same number of trials and of ground-truth positives.  The second report
    is the one the default call [calc_precision_recall()] returns, from any
    generator state. *)
Theorem levels_cell_reports {L : Library} (G : Globals) (st : rng)
  (r1 r2 r3 : report) :
  fst (part000_cell_levels G st) = Py.Return [r1; r2; r3] ->
  (rejections (counts r1) <= rejections (counts r2) <= rejections (counts r3) /\
   true_positives (counts r1) <= true_positives (counts r2)
     <= true_positives (counts r3) /\
   true_positives (counts r1) + false_negatives (counts r1)
     = true_positives (counts r2) + false_negatives (counts r2) /\
   true_positives (counts r2) + false_negatives (counts r2)
     = true_positives (counts r3) + false_negatives (counts r3) /\
   total (counts r1) = total (counts r2) /\
   total (counts r2) = total (counts r3))%Z /\
  (forall st', fst (part000_cell_default G st') = Py.Return r2).
Proof.
  intros H. rewrite part000_cell_levels_eq in H.
  apply seq_calls_three in H.
  destruct H as (a1 & a2 & a3 & E & H1 & H2 & H3).
  inversion E. subst a1 a2 a3. clear E.
  pose proof (calc_report_counts G _ _ _ _ _ H1) as C1.
  pose proof (calc_report_counts G _ _ _ _ _ H2) as C2.
  pose proof (calc_report_counts G _ _ _ _ _ H3) as C3.
  split.
  - rewrite C1, C2, C3.
    pose proof (level_monotone G (Part000.draw G 100 0.5) 0.01 0.05
                  st (snd (Part000.calc_precision_recall G 100 0.01 0.5 st))
                  eq_refl n_iters) as M12.
    pose proof (level_monotone G (Part000.draw G 100 0.5) 0.05 0.10
                  (snd (Part000.calc_precision_recall G 100 0.01 0.5 st))
                  (snd (Part000.calc_precision_recall G 100 0.05 0.5
                          (snd (Part000.calc_precision_recall G 100 0.01 0.5 st))))
                  eq_refl n_iters) as M23.
    pose proof (level_antitone G (Part000.draw G 100 0.5) 0.01 0.05
                  st (snd (Part000.calc_precision_recall G 100 0.01 0.5 st))
                  eq_refl n_iters) as A12.
    pose proof (level_antitone G (Part000.draw G 100 0.5) 0.05 0.10
                  (snd (Part000.calc_precision_recall G 100 0.01 0.5 st))
                  (snd (Part000.calc_precision_recall G 100 0.05 0.5
                          (snd (Part000.calc_precision_recall G 100 0.01 0.5 st))))
                  eq_refl n_iters) as A23.
    cbv zeta in A12, A23.
    destruct M12 as (R12 & T12 & P12). destruct M23 as (R23 & T23 & P23).
    destruct A12 as (_ & _ & _ & Tot12). destruct A23 as (_ & _ & _ & Tot23).
    split; [split; [exact R12 | exact R23]|].
    split; [split; [exact T12 | exact T23]|].
    split; [exact P12|]. split; [exact P23|].
    split; [exact Tot12 | exact Tot23].
  - intros st'. rewrite part000_cell_default_eq, calc_outcome.
    rewrite calc_outcome in H2.
    rewrite (tally_independent_of_state G _ 0.05 _ st'
               (snd (Part000.calc_precision_recall G 100 0.01 0.5 st))).
    exact H2.
Qed.

Lemma stuck_first_trial_hundred :
  trial_truth (L := Fixture.stuck) (Part000.draw (L := Fixture.stuck) Notebook 100 0.5) 0
    = positive /\
  Py.lt (trial_pvalue (L := Fixture.stuck) Notebook
           (Part000.draw (L := Fixture.stuck) Notebook 100 0.5) 0) 0.01 = true.
Proof. split; vm_compute; reflexivity. Qed.

Lemma levels_cell_witness :
  exists r1 r2 r3,
    fst (part000_cell_levels (L := Fixture.stuck) Notebook 0%Z) = Py.Return [r1; r2; r3] /\
    (rejections (counts r1) <= rejections (counts r2))%Z.
Proof.
  destruct stuck_first_trial_hundred as [Ht Hp].
  assert (0 < n_iters)%nat as Hk by (rewrite n_iters_succ; apply Nat.lt_0_succ).
  assert (forall s, PrimFloat.leb 0.01 s = true ->
            Py.lt (trial_pvalue (L := Fixture.stuck) Notebook
                     (Part000.draw (L := Fixture.stuck) Notebook 100 0.5) 0) s = true)
    as Hs by (intros s Hle; exact (IEEE_facts.lt_le_trans _ _ _ Hp Hle)).
  destruct (returns_if_true_positive (L := Fixture.stuck) Notebook 100 0.01 0.5
              0%Z 0 Hk Ht (Hs 0.01%float eq_refl)) as [r1 H1].
  destruct (returns_if_true_positive (L := Fixture.stuck) Notebook 100 0.05 0.5
              (snd (Part000.calc_precision_recall (L := Fixture.stuck) Notebook
                      100 0.01 0.5 0%Z))
              0 Hk Ht (Hs 0.05%float eq_refl)) as [r2 H2].
  destruct (returns_if_true_positive (L := Fixture.stuck) Notebook 100 0.10 0.5
              (snd (Part000.calc_precision_recall (L := Fixture.stuck) Notebook
                      100 0.05 0.5
                      (snd (Part000.calc_precision_recall (L := Fixture.stuck) Notebook
                              100 0.01 0.5 0%Z))))
              0 Hk Ht (Hs 0.10%float eq_refl)) as [r3 H3].
  exists r1, r2, r3.
  assert (fst (part000_cell_levels (L := Fixture.stuck) Notebook 0%Z)
          = Py.Return [r1; r2; r3]) as E.
  { rewrite part000_cell_levels_eq.
    exact (seq_calls_three_returns _ _ _ _ _ _ _ H1 H2 H3). }
  split; [exact E|].
  exact (proj1 (proj1 (proj1
    (@levels_cell_reports Fixture.stuck Notebook 0%Z r1 r2 r3 E)))).
Defined.

(** X7.  When the cell of the three calls with probabilities 0.5, 0.1 and
    0.01 (all at level 0.05) completes, true positives and false negatives
    do not increase from one report to the next, and false positives and
    true negatives do not decrease. *)
Theorem probabilities_cell_reports {L : Library} (G : Globals) (st : rng)
  (r1 r2 r3 : report) :
  fst (part000_cell_probabilities G st) = Py.Return [r1; r2; r3] ->
  (true_positives (counts r3) <= true_positives (counts r2)
     <= true_positives (counts r1) /\
   false_negatives (counts r3) <= false_negatives (counts r2)
     <= false_negatives (counts r1) /\
   false_positives (counts r1) <= false_positives (counts r2)
     <= false_positives (counts r3) /\
   true_negatives (counts r1) <= true_negatives (counts r2)
     <= true_negatives (counts r3))%Z.
Proof.
  intros H. rewrite part000_cell_probabilities_eq in H.
  apply seq_calls_three in H.
  destruct H as (a1 & a2 & a3 & E & H1 & H2 & H3).
  inversion E. subst a1 a2 a3. clear E.
  rewrite (calc_report_counts G _ _ _ _ _ H1), (calc_report_counts G _ _ _ _ _ H2),
    (calc_report_counts G _ _ _ _ _ H3).
  pose proof (probability_monotone_upto G 100 0.05 0.1 0.5
                (snd (Part000.calc_precision_recall G 100 0.05 0.5 st)) st
                eq_refl n_iters) as M21.
  pose proof (probability_monotone_upto G 100 0.05 0.01 0.1
                (snd (Part000.calc_precision_recall G 100 0.05 0.1
                        (snd (Part000.calc_precision_recall G 100 0.05 0.5 st))))
                (snd (Part000.calc_precision_recall G 100 0.05 0.5 st))
                eq_refl n_iters) as M32.
  cbv zeta in M21, M32.
  destruct M21 as (A1 & A2 & A3 & A4). destruct M32 as (B1 & B2 & B3 & B4).
  split; [split; [exact B1 | exact A1]|].
  split; [split; [exact B2 | exact A2]|].
  split; [split; [exact A3 | exact B3]|].
  split; [exact A4 | exact B4].
Qed.

Lemma stuck_fourth_trial_hundred : forall p : float,
  Py.lt 0 p = true ->
  trial_truth (L := Fixture.stuck) (Part000.draw (L := Fixture.stuck) Notebook 100 p) 3
    = positive /\
  Py.lt (trial_pvalue (L := Fixture.stuck) Notebook
           (Part000.draw (L := Fixture.stuck) Notebook 100 p) 3) 0.05 = true.
Proof.
  intros p Hp. rewrite stuck_draw_eq. unfold trial_pvalue.
  destruct (stuck_trial 100 p 3) as [T S]. cbv zeta in T, S. rewrite T, S.
  change (Fixture.uniform (313 + Z.of_nat 3)) with 0%float.
  rewrite Hp. split; [reflexivity|]. vm_compute. reflexivity.
Qed.

Lemma probabilities_cell_witness :
  exists r1 r2 r3,
    fst (part000_cell_probabilities (L := Fixture.stuck) Notebook 0%Z)
      = Py.Return [r1; r2; r3] /\
    (true_positives (counts r3) <= true_positives (counts r2))%Z.
Proof.
  assert (3 < n_iters)%nat as Hk by (rewrite n_iters_succ; apply Nat.lt_succ_r,
                                     Nat.leb_le; vm_compute; reflexivity).
  destruct (stuck_fourth_trial_hundred 0.5 eq_refl) as [T1 P1].
  destruct (stuck_fourth_trial_hundred 0.1 eq_refl) as [T2 P2].
  destruct (stuck_fourth_trial_hundred 0.01 eq_refl) as [T3 P3].
  destruct (returns_if_true_positive (L := Fixture.stuck) Notebook 100 0.05 0.5
              0%Z 3 Hk T1 P1) as [r1 H1].
  destruct (returns_if_true_positive (L := Fixture.stuck) Notebook 100 0.05 0.1
              (snd (Part000.calc_precision_recall (L := Fixture.stuck) Notebook
                      100 0.05 0.5 0%Z))
              3 Hk T2 P2) as [r2 H2].
  destruct (returns_if_true_positive (L := Fixture.stuck) Notebook 100 0.05 0.01
              (snd (Part000.calc_precision_recall (L := Fixture.stuck) Notebook
                      100 0.05 0.1
                      (snd (Part000.calc_precision_recall (L := Fixture.stuck) Notebook
                              100 0.05 0.5 0%Z))))
              3 Hk T3 P3) as [r3 H3].
  exists r1, r2, r3.
  assert (fst (part000_cell_probabilities (L := Fixture.stuck) Notebook 0%Z)
          = Py.Return [r1; r2; r3]) as E.
  { rewrite part000_cell_probabilities_eq.
    exact (seq_calls_three_returns _ _ _ _ _ _ _ H1 H2 H3). }
  split; [exact E|].
  exact (proj1 (proj1
    (@probabilities_cell_reports Fixture.stuck Notebook 0%Z r1 r2 r3 E))).
Defined.

(** ** The function of the first lesson: alternating ground truth *)

(** X8.  In the first lesson, iteration 0 of the loop with the default 100
    samples redoes the single-sample test of the cells above it: it is
    ground-truth positive, its sample is the cell's [x] and its p-value the
    cell's [pvalue].  It is therefore counted as a true positive when that
    p-value is below the level and as a false negative when it is at or
    above it. *)
Theorem lesson1_first_trial_is_the_cell_test {L : Library} (G : Globals)
  (signif_level : float) (st0 : rng) :
  let x := fst (lesson1_cell_sample G) in
  let after := fst (run_trials G (Lesson1.draw G 100) signif_level 1 st0) in
  trial_truth (Lesson1.draw G 100) 0 = positive /\
  trial_sample (Lesson1.draw G 100) 0 = x /\
  trial_pvalue G (Lesson1.draw G 100) 0 = cell_pvalue G x /\
  (true_positives after = if Py.lt (cell_pvalue G x) signif_level then 1 else 0)%Z /\
  (false_negatives after = if Py.ge (cell_pvalue G x) signif_level then 1 else 0)%Z /\
  false_positives after = 0%Z /\ true_negatives after = 0%Z.
Proof.
  cbv zeta.
  destruct (lesson1_trial G 100 0) as [T S]. cbv zeta in T, S.
  change (Z.of_nat 0 mod 2 =? 0)%Z with true in T, S.
  change (313 + Z.of_nat 0)%Z with 313%Z in S.
  assert (trial_sample (Lesson1.draw G 100) 0 = fst (lesson1_cell_sample G)) as E.
  { rewrite S. unfold lesson1_cell_sample.
    destruct (randn 100 (seed 313)) as [z st1]. reflexivity. }
  assert (trial_pvalue G (Lesson1.draw G 100) 0
          = cell_pvalue G (fst (lesson1_cell_sample G))) as P.
  { unfold trial_pvalue, cell_pvalue. rewrite E. reflexivity. }
  split; [exact T|]. split; [exact E|]. split; [exact P|].
  rewrite tally_succ.
  destruct (tally_trial_counters (trial_truth (Lesson1.draw G 100) 0)
              (trial_pvalue G (Lesson1.draw G 100) 0) signif_level
              (fst (run_trials G (Lesson1.draw G 100) signif_level 0 st0)))
    as (C1 & C2 & C3 & C4).
  rewrite C1, C2, C3, C4, T, P. cbn [truth_eqb andb].
  repeat split.
Qed.

Lemma count_even_double : forall k : nat,
  count_trials (fun i => (Z.of_nat i mod 2 =? 0)%Z) (2 * k) = Z.of_nat k /\
  count_trials (fun i => negb (Z.of_nat i mod 2 =? 0)%Z) (2 * k) = Z.of_nat k.
Proof.
  induction k as [|k [IH1 IH2]].
  - split; reflexivity.
  - replace (2 * S k)%nat with (S (S (2 * k))) by lia.
    rewrite !count_trials_succ, IH1, IH2.
    assert (Z.of_nat (2 * k) mod 2 = 0)%Z as E0.
    { rewrite Nat2Z.inj_mul, Z.mul_comm. apply Z_mod_mult. }
    assert (Z.of_nat (S (2 * k)) mod 2 = 1)%Z as E1.
    { rewrite Nat2Z.inj_succ, Nat2Z.inj_mul. unfold Z.succ.
      rewrite Z.add_comm, Z.mul_comm, Z_mod_plus_full. reflexivity. }
    rewrite E0, E1. cbn [Z.eqb negb]. split; lia.
Qed.

Lemma n_iters_double : n_iters = (2 * Z.to_nat 5000)%nat.
Proof. vm_compute. reflexivity. Qed.

Lemma count_trials_le : forall (f g : nat -> bool) (n : nat),
  (forall i, f i = true -> g i = true) ->
  (count_trials f n <= count_trials g n)%Z.
Proof.
  intros f g n H. induction n as [|n IH].
  - reflexivity.
  - rewrite !count_trials_succ.
    destruct (f n) eqn:E; [rewrite (H n E)|destruct (g n)]; lia.
Qed.

Lemma count_trials_ext : forall (f g : nat -> bool) (n : nat),
  (forall i, (i < n)%nat -> f i = g i) ->
  count_trials f n = count_trials g n.
Proof.
  intros f g n. induction n as [|n IH]; intros H.
  - reflexivity.
  - rewrite !count_trials_succ, IH, (H n) by auto. reflexivity.
Qed.

(** The tallied ground-truth positives of the first lesson are the even
    iterations with a comparable p-value, the tallied negatives the odd
    ones. *)
Lemma lesson1_positives_negatives {L : Library} (G : Globals)
  (nsamples : nat) (signif_level : float) (n : nat) (st0 : rng) :
  let c := fst (run_trials G (Lesson1.draw G nsamples) signif_level n st0) in
  let cmp i := comparable (trial_pvalue G (Lesson1.draw G nsamples) i) signif_level in
  (true_positives c + false_negatives c
   = count_trials (fun i => (Z.of_nat i mod 2 =? 0)%Z && cmp i) n /\
   false_positives c + true_negatives c
   = count_trials (fun i => negb (Z.of_nat i mod 2 =? 0)%Z && cmp i) n)%Z.
Proof.
  cbv zeta. induction n as [|n [IH1 IH2]].
  - split; reflexivity.
  - rewrite tally_succ, !count_trials_succ.
    destruct (tally_trial_counters (trial_truth (Lesson1.draw G nsamples) n)
                (trial_pvalue G (Lesson1.draw G nsamples) n) signif_level
                (fst (run_trials G (Lesson1.draw G nsamples) signif_level n st0)))
      as (C1 & C2 & C3 & C4).
    rewrite C1, C2, C3, C4, <- IH1, <- IH2. clear C1 C2 C3 C4 IH1 IH2.
    rewrite (proj1 (lesson1_trial G nsamples n)). unfold comparable.
    destruct (Py.lt (trial_pvalue G (Lesson1.draw G nsamples) n) signif_level) eqn:E.
    + rewrite (IEEE_facts.lt_ge_exclusive _ _ E).
      destruct (Z.of_nat n mod 2 =? 0)%Z; cbn [truth_eqb andb orb negb]; split; lia.
    + destruct (Py.ge (trial_pvalue G (Lesson1.draw G nsamples) n) signif_level);
        destruct (Z.of_nat n mod 2 =? 0)%Z; cbn [truth_eqb andb orb negb]; split; lia.
Qed.

(** X9.  The function of the first lesson alternates the ground truth, so in
    its 10000 iterations at most 5000 trials are tallied as ground-truth
    positive (true positives plus false negatives) and at most 5000 as
    ground-truth negative (false positives plus true negatives), whatever
    the library returns. *)
Theorem lesson1_at_most_half_each {L : Library} (G : Globals)
  (nsamples : nat) (signif_level : float) (st0 : rng) :
  let c := fst (run_trials G (Lesson1.draw G nsamples) signif_level n_iters st0) in
  (true_positives c + false_negatives c <= 5000 /\
   false_positives c + true_negatives c <= 5000)%Z /\
  (forall r,
     fst (Lesson1.calc_precision_recall G nsamples signif_level st0) = Py.Return r ->
     (true_positives (counts r) + false_negatives (counts r) <= 5000 /\
      false_positives (counts r) + true_negatives (counts r) <= 5000)%Z).
Proof.
  cbv zeta.
  destruct (lesson1_positives_negatives G nsamples signif_level n_iters st0)
    as [P N]. cbv zeta in P, N.
  assert (true_positives
            (fst (run_trials G (Lesson1.draw G nsamples) signif_level n_iters st0))
          + false_negatives
              (fst (run_trials G (Lesson1.draw G nsamples) signif_level n_iters st0))
          <= 5000 /\
          false_positives
            (fst (run_trials G (Lesson1.draw G nsamples) signif_level n_iters st0))
          + true_negatives
              (fst (run_trials G (Lesson1.draw G nsamples) signif_level n_iters st0))
          <= 5000)%Z as B.
  { rewrite P, N. rewrite n_iters_double.
    destruct (count_even_double (Z.to_nat 5000)) as [E O].
    split.
    - apply Z.le_trans with
        (count_trials (fun i => (Z.of_nat i mod 2 =? 0)%Z) (2 * Z.to_nat 5000)).
      + apply count_trials_le. intros i Hi. apply andb_true_iff in Hi. tauto.
      + rewrite E. reflexivity.
    - apply Z.le_trans with
        (count_trials (fun i => negb (Z.of_nat i mod 2 =? 0)%Z) (2 * Z.to_nat 5000)).
      + apply count_trials_le. intros i Hi. apply andb_true_iff in Hi. tauto.
      + rewrite O. reflexivity. }
  split; [exact B|].
  intros r Hr. rewrite lesson1_outcome in Hr. apply metrics_counts in Hr.
  rewrite Hr. exact B.
Qed.

Lemma lesson1_split_upto {L : Library} (G : Globals)
  (nsamples : nat) (signif_level : float) (k : nat) (st0 : rng) :
  PrimFloat.is_nan signif_level = false ->
  (forall i, (i < 2 * k)%nat ->
     PrimFloat.is_nan (trial_pvalue G (Lesson1.draw G nsamples) i) = false) ->
  let c := fst (run_trials G (Lesson1.draw G nsamples) signif_level (2 * k) st0) in
  (true_positives c + false_negatives c = Z.of_nat k /\
   false_positives c + true_negatives c = Z.of_nat k)%Z.
Proof.
  intros Hs Hp. cbv zeta.
  destruct (lesson1_positives_negatives G nsamples signif_level (2 * k) st0)
    as [P N]. cbv zeta in P, N. rewrite P, N.
  destruct (count_even_double k) as [E O].
  assert (forall i, (i < 2 * k)%nat ->
            comparable (trial_pvalue G (Lesson1.draw G nsamples) i) signif_level = true)
    as C
    by (intros i Hi; apply IEEE_facts.comparable_iff; split; [apply Hp, Hi | exact Hs]).
  split.
  - rewrite (count_trials_ext _ (fun i => (Z.of_nat i mod 2 =? 0)%Z)).
    + exact E.
    + intros i Hi. rewrite (C i Hi), andb_true_r. reflexivity.
  - rewrite (count_trials_ext _ (fun i => negb (Z.of_nat i mod 2 =? 0)%Z)).
    + exact O.
    + intros i Hi. rewrite (C i Hi), andb_true_r. reflexivity.
Qed.

(** X10.  When the level and the p-values of the 10000 trials are numbers,
    the function of the first lesson tallies exactly 5000 ground-truth
    positive and 5000 ground-truth negative trials. *)
Theorem lesson1_balanced {L : Library} (G : Globals)
  (nsamples : nat) (signif_level : float) (st0 : rng) :
  PrimFloat.is_nan signif_level = false ->
  (forall i, (i < n_iters)%nat ->
     PrimFloat.is_nan (trial_pvalue G (Lesson1.draw G nsamples) i) = false) ->
  let c := fst (run_trials G (Lesson1.draw G nsamples) signif_level n_iters st0) in
  (true_positives c + false_negatives c = 5000 /\
   false_positives c + true_negatives c = 5000)%Z.
Proof.
  intros Hs Hp. cbv zeta. rewrite n_iters_double in Hp |- *.
  exact (lesson1_split_upto G nsamples signif_level (Z.to_nat 5000) st0 Hs Hp).
Qed.

Lemma alternating_lesson1_pvalue : forall i : nat,
  PrimFloat.is_nan
    (trial_pvalue (L := alternating) Notebook
       (Lesson1.draw (L := alternating) Notebook 2) i) = false.
Proof.
  intros i. unfold trial_pvalue.
  rewrite (proj2 (lesson1_trial (L := alternating) Notebook 2 i)).
  destruct (Z.of_nat i mod 2 =? 0)%Z; vm_compute; reflexivity.
Qed.

Lemma lesson1_balanced_witness :
  (true_positives
     (fst (run_trials (L := alternating) Notebook
             (Lesson1.draw (L := alternating) Notebook 2) 0.05 n_iters 0%Z))
   + false_negatives
       (fst (run_trials (L := alternating) Notebook
               (Lesson1.draw (L := alternating) Notebook 2) 0.05 n_iters 0%Z))
   = 5000)%Z.
Proof.
  refine (proj1 (@lesson1_balanced alternating Notebook 2 0.05%float 0%Z _ _)).
  - reflexivity.
  - intros i _. exact (alternating_lesson1_pvalue i).
Defined.

(** ** Signs of the sample statistics *)
Module IEEE_sign_facts.

Import IEEE_sign.

(** Rounding keeps the sign it is given. *)
Lemma binary_round_aux_sign : forall (sx : bool) (m e : Z) (l : location),
  match binary_round_aux prec emax sx m e l with
  | S754_nan => True
  | S754_zero s | S754_infinity s | S754_finite s _ _ => s = sx
  end.
Proof.
  intros sx m e l. unfold binary_round_aux.
  destruct (shr_fexp prec emax m e l) as [mrs' e'].
  destruct (shr_fexp prec emax _ e' loc_Exact) as [mrs'' e''].
  destruct (shr_m mrs''); [reflexivity | | exact I].
  destruct (e'' <=? emax - prec)%Z; reflexivity.
Qed.

Lemma binary_round_aux_pos : forall (m e : Z) (l : location),
  sf_pos (binary_round_aux prec emax false m e l) = true.
Proof.
  intros m e l. pose proof (binary_round_aux_sign false m e l) as H.
  destruct (binary_round_aux prec emax false m e l); cbn; try reflexivity;
    rewrite H; reflexivity.
Qed.

Lemma binary_round_pos : forall (m : BinNums.positive) (e : Z),
  sf_pos (binary_round prec emax false m e) = true.
Proof.
  intros m e. unfold binary_round.
  destruct (shl_align m e (fexp prec emax (Z.pos (digits2_pos m) + e))) as [mz ez].
  apply binary_round_aux_pos.
Qed.

Lemma SFsqrt_pos : forall x, sf_pos x = true -> sf_pos (SF64sqrt x) = true.
Proof.
  intros [[]|[]| |[] m e] H; try discriminate; try reflexivity.
  unfold SF64sqrt, SFsqrt.
  destruct (SFsqrt_core_binary prec emax (Z.pos m) e) as [[mz ez] lz].
  apply binary_round_aux_pos.
Qed.

Lemma SFdiv_pos : forall x y,
  sf_pos x = true -> sf_pos y = true -> sf_pos (SF64div x y) = true.
Proof.
  intros [[]|[]| |[] mx ex] [[]|[]| |[] my ey] Hx Hy;
    try discriminate; try reflexivity.
  unfold SF64div, SFdiv.
  destruct (SFdiv_core_binary prec emax (Z.pos mx) ex (Z.pos my) ey) as [[mz ez] lz].
  apply binary_round_aux_pos.
Qed.

Lemma SFmul_self_pos : forall x, sf_pos (SF64mul x x) = true.
Proof.
  intros [[]|[]| |[] m e]; try reflexivity;
    unfold SF64mul, SFmul; cbn [xorb]; apply binary_round_aux_pos.
Qed.

Lemma SFadd_pos : forall x y,
  sf_pos x = true -> sf_pos y = true -> sf_pos (SF64add x y) = true.
Proof.
  intros [[]|[]| |[] mx ex] [[]|[]| |[] my ey] Hx Hy;
    try discriminate; try reflexivity.
  unfold SF64add, SFadd. cbn [cond_Zopp]. unfold binary_normalize.
  cbn [Z.add]. apply binary_round_pos.
Qed.

(** The quotient by a number whose sign bit is clear is below zero, or above
    zero, only if the numerator is. *)
Lemma SFdiv_sign : forall x y,
  sf_pos y = true ->
  (sf_neg (SF64div x y) = true -> sf_neg x = true) /\
  (sf_gt0 (SF64div x y) = true -> sf_gt0 x = true).
Proof.
  intros [[]|[]| |[] mx ex] [[]|[]| |[] my ey] Hy;
    try discriminate; try (split; intros H; (exact H || discriminate || reflexivity)).
  - unfold SF64div, SFdiv.
    destruct (SFdiv_core_binary prec emax (Z.pos mx) ex (Z.pos my) ey) as [[mz ez] lz].
    cbn [xorb]. split; [reflexivity|].
    pose proof (binary_round_aux_sign true mz ez lz) as S.
    destruct (binary_round_aux prec emax true mz ez lz) as [s|s| |s m e];
      cbn; try discriminate; rewrite S; discriminate.
  - unfold SF64div, SFdiv.
    destruct (SFdiv_core_binary prec emax (Z.pos mx) ex (Z.pos my) ey) as [[mz ez] lz].
    cbn [xorb]. split; [|reflexivity].
    pose proof (binary_round_aux_sign false mz ez lz) as S.
    destruct (binary_round_aux prec emax false mz ez lz) as [s|s| |s m e];
      cbn; try discriminate; rewrite S; discriminate.
Qed.

Lemma float_of_int_pos : forall z : Z,
  (0 <= z)%Z -> sf_pos (Prim2SF (Py.float_of_int z)) = true.
Proof.
  intros z Hz. unfold Py.float_of_int.
  replace (z <? 0)%Z with false by (symmetry; apply Z.ltb_ge; exact Hz).
  rewrite of_uint63_spec.
  pose proof (Uint63.to_Z_bounded (Uint63.of_Z z)) as B.
  unfold binary_normalize.
  destruct (Uint63.to_Z (Uint63.of_Z z)) as [|m|m] eqn:E.
  - reflexivity.
  - apply binary_round_pos.
  - exfalso. change (Uint63Axioms.to_Z (Uint63.of_Z z)) with
      (Uint63.to_Z (Uint63.of_Z z)) in *. lia.
Qed.

Lemma sum_pos : forall (x : list float),
  (forall v, In v x -> sf_pos (Prim2SF v) = true) ->
  forall a : float, sf_pos (Prim2SF a) = true ->
  sf_pos (Prim2SF (fold_left PrimFloat.add x a)) = true.
Proof.
  induction x as [|v x IH]; intros H a Ha.
  - exact Ha.
  - cbn [fold_left]. apply IH.
    + intros w Hw. apply H. right. exact Hw.
    + rewrite add_spec. apply SFadd_pos; [exact Ha|]. apply H. left. reflexivity.
Qed.

(** The sign bit of [std(x, ddof)] and of the standard error is never
    set. *)
Lemma std_pos : forall (x : list float) (ddof : Z),
  sf_pos (Prim2SF (Np.std x ddof)) = true.
Proof.
  intros x ddof. unfold Np.std, Np.var. rewrite sqrt_spec. apply SFsqrt_pos.
  rewrite div_spec. apply SFdiv_pos.
  - unfold Np.sum. apply sum_pos; [|reflexivity].
    intros v Hv. apply in_map_iff in Hv. destruct Hv as (d & E & _). subst v.
    rewrite mul_spec. apply SFmul_self_pos.
  - apply float_of_int_pos. lia.
Qed.

Lemma se_pos : forall x : list float, sf_pos (Prim2SF (se x)) = true.
Proof.
  intros x. unfold se. rewrite div_spec. apply SFdiv_pos.
  - apply std_pos.
  - unfold Np.sqrt. rewrite sqrt_spec. apply SFsqrt_pos.
    apply float_of_int_pos. unfold Py.len. lia.
Qed.

Lemma ltb_zero_r : forall f : float,
  PrimFloat.ltb f 0 = sf_neg (Prim2SF f).
Proof.
  intros f. rewrite FloatAxioms.ltb_spec.
  change (Prim2SF 0) with (S754_zero false).
  destruct (Prim2SF f) as [[]|[]| |[] m e]; reflexivity.
Qed.

Lemma ltb_zero_l : forall f : float,
  PrimFloat.ltb 0 f = sf_gt0 (Prim2SF f).
Proof.
  intros f. rewrite FloatAxioms.ltb_spec.
  change (Prim2SF 0) with (S754_zero false).
  destruct (Prim2SF f) as [[]|[]| |[] m e]; reflexivity.
Qed.

Lemma pos_not_neg : forall f, sf_pos f = true -> sf_neg f = false.
Proof. intros [[]|[]| |[] m e] H; try discriminate; reflexivity. Qed.

Lemma pos_zero_is_plus_zero : forall f : float,
  sf_pos (Prim2SF f) = true -> PrimFloat.is_zero f = true ->
  Prim2SF f = S754_zero false.
Proof.
  intros f Hp Hz. unfold PrimFloat.is_zero in Hz.
  apply IEEE_facts.eqb_true_iff in Hz. destruct Hz as (Hn & _ & Hr).
  change (IEEE.rank (Prim2SF zero)) with (0, 0, 0)%Z in Hr.
  destruct (IEEE_facts.rank_zero _ Hn Hr) as [s E]. rewrite E in *.
  destruct s; [discriminate | reflexivity].
Qed.

End IEEE_sign_facts.

(** X11.  Whatever the sample and whatever [ddof], [std] is never negative,
    and neither is the standard error; when the standard error is zero it is
    +0, never -0. *)
Theorem standard_error_never_negative (x : list float) (ddof : Z) :
  PrimFloat.ltb (Np.std x ddof) 0 = false /\
  PrimFloat.ltb (se x) 0 = false /\
  (PrimFloat.is_zero (se x) = true -> Prim2SF (se x) = S754_zero false).
Proof.
  split; [|split].
  - rewrite IEEE_sign_facts.ltb_zero_r.
    apply IEEE_sign_facts.pos_not_neg, IEEE_sign_facts.std_pos.
  - rewrite IEEE_sign_facts.ltb_zero_r.
    apply IEEE_sign_facts.pos_not_neg, IEEE_sign_facts.se_pos.
  - apply IEEE_sign_facts.pos_zero_is_plus_zero, IEEE_sign_facts.se_pos.
Qed.

(** X12.  The t-statistic is below zero only if the sample mean minus the
    reference mean is, and above zero only if that difference is: dividing
    by the standard error never turns the sign. *)
Theorem tstat_sign_follows_mean (G : Globals) (x : list float) :
  let num := PrimFloat.sub (Np.mean x) (reference_mean G) in
  (PrimFloat.ltb (tstat G x) 0 = true -> PrimFloat.ltb num 0 = true) /\
  (PrimFloat.ltb 0 (tstat G x) = true -> PrimFloat.ltb 0 num = true).
Proof.
  cbv zeta. unfold tstat.
  rewrite !IEEE_sign_facts.ltb_zero_r, !IEEE_sign_facts.ltb_zero_l, div_spec.
  apply IEEE_sign_facts.SFdiv_sign, IEEE_sign_facts.se_pos.
Qed.

(** ** Empty samples *)

(** X13.  A trial whose sample is empty (as with [nsamples = 0]) has a NaN
    standard error and a NaN t-statistic, whatever the reference mean, and
    its p-value is the t-distribution function at NaN with -1 degrees of
    freedom. *)
Theorem empty_sample_statistics_are_nan {L : Library} (G : Globals)
  (draw : nat -> rng -> truth * list float * rng) (i : nat) :
  trial_sample draw i = [] ->
  PrimFloat.is_nan (se (trial_sample draw i)) = true /\
  PrimFloat.is_nan (tstat G (trial_sample draw i)) = true /\
  trial_pvalue G draw i = t_cdf (tstat G []) (-1).
Proof.
  intros E. unfold trial_pvalue. rewrite E. split; [reflexivity|]. split.
  - rewrite IEEE_facts.is_nan_spec. unfold tstat. rewrite div_spec.
    change (Prim2SF (se [])) with S754_nan.
    destruct (Prim2SF (PrimFloat.sub (Np.mean []) (reference_mean G)))
      as [s|s| |s m e]; reflexivity.
  - reflexivity.
Qed.

Lemma empty_sample_witness :
  PrimFloat.is_nan
    (tstat Notebook (trial_sample (L := Fixture.stuck) (stuck_draw 0 0.5) 0)) = true.
Proof.
  refine (proj1 (proj2
    (@empty_sample_statistics_are_nan Fixture.stuck Notebook (stuck_draw 0 0.5) 0 _))).
  vm_compute. reflexivity.
Defined.

(** ** The order of the iterations *)

Lemma tally_ext : forall c c' : tally,
  true_positives c = true_positives c' ->
  false_positives c = false_positives c' ->
  true_negatives c = true_negatives c' ->
  false_negatives c = false_negatives c' ->
  c = c'.
Proof.
  intros [a1 a2 a3 a4] [b1 b2 b3 b4]. cbn. intros -> -> -> ->. reflexivity.
Qed.

Lemma tally_trial_commute : forall (t1 t2 : truth) (p1 p2 s : float) (c : tally),
  tally_trial t1 p1 s (tally_trial t2 p2 s c)
  = tally_trial t2 p2 s (tally_trial t1 p1 s c).
Proof.
  intros t1 t2 p1 p2 s c.
  destruct (tally_trial_counters t1 p1 s (tally_trial t2 p2 s c)) as (A1 & A2 & A3 & A4).
  destruct (tally_trial_counters t2 p2 s c) as (B1 & B2 & B3 & B4).
  destruct (tally_trial_counters t2 p2 s (tally_trial t1 p1 s c)) as (C1 & C2 & C3 & C4).
  destruct (tally_trial_counters t1 p1 s c) as (D1 & D2 & D3 & D4).
  apply tally_ext; lia.
Qed.

Lemma run_over_tally {L : Library} (G : Globals)
  (draw : nat -> rng -> truth * list float * rng) (signif_level : float) :
  forall (l : list nat) (acc : tally * rng),
  fst (run_over G draw signif_level l acc) =
  fold_left (fun c i => tally_trial (trial_truth draw i) (trial_pvalue G draw i)
                                    signif_level c) l (fst acc).
Proof.
  unfold run_over. induction l as [|i l IH]; intros acc.
  - reflexivity.
  - cbn [fold_left]. rewrite IH. f_equal.
    unfold loop_body, trial_truth, trial_pvalue, trial_sample.
    destruct (draw i (seed (313 + Z.of_nat i))) as [[t x] st']. reflexivity.
Qed.

Lemma fold_tally_permutation {L : Library} (G : Globals)
  (draw : nat -> rng -> truth * list float * rng) (signif_level : float) :
  forall l l' : list nat, Permutation l l' ->
  forall c : tally,
  fold_left (fun c i => tally_trial (trial_truth draw i) (trial_pvalue G draw i)
                                    signif_level c) l c =
  fold_left (fun c i => tally_trial (trial_truth draw i) (trial_pvalue G draw i)
                                    signif_level c) l' c.
Proof.
  intros l l' P. induction P as [|x l l' P IH|x y l|l l' l'' P1 IH1 P2 IH2]; intros c.
  - reflexivity.
  - cbn [fold_left]. apply IH.
  - cbn [fold_left]. rewrite tally_trial_commute. reflexivity.
  - rewrite IH1. apply IH2.
Qed.

(** X14.  The tally does not depend on the order in which the iterations are
    run, nor on the generator state at the start: running the loop body over
    any reordering of the iteration indices gives the counters of the loop
    in source order, in particular when the indices run backwards. *)
Theorem tally_order_irrelevant {L : Library} (G : Globals)
  (draw : nat -> rng -> truth * list float * rng) (signif_level : float)
  (l l' : list nat) (c : tally) (st st' : rng) :
  Permutation l l' ->
  fst (run_over G draw signif_level l (c, st))
    = fst (run_over G draw signif_level l' (c, st')) /\
  forall n,
    fst (run_over G draw signif_level (rev (seq 0 n)) (zero_tally, st))
      = fst (run_trials G draw signif_level n st').
Proof.
  intros P. split.
  - rewrite !run_over_tally. cbn [fst]. apply fold_tally_permutation. exact P.
  - intros n. rewrite run_over_tally, tally_pure. cbn [fst].
    apply fold_tally_permutation. symmetry. apply Permutation_rev.
Qed.

Lemma tally_order_witness :
  fst (run_over (L := Fixture.stuck) Notebook (stuck_draw 2 0.5) 0.05 [0; 1]%nat
         (zero_tally, 0%Z))
  = fst (run_over (L := Fixture.stuck) Notebook (stuck_draw 2 0.5) 0.05 [1; 0]%nat
           (zero_tally, 7%Z)).
Proof.
  refine (proj1 (@tally_order_irrelevant Fixture.stuck Notebook (stuck_draw 2 0.5)
                   0.05%float [0; 1]%nat [1; 0]%nat zero_tally 0%Z 7%Z _)).
  apply perm_swap.
Defined.

(** ** A cell of calls fails in its first call or not at all *)

Lemma metrics_returns_transfer : forall (c1 c2 : tally) (r1 : report),
  metrics c1 = Py.Return r1 ->
  (0 <= true_positives c1)%Z -> (0 <= false_positives c1)%Z ->
  (0 <= true_positives c2)%Z -> (0 <= false_positives c2)%Z ->
  (rejections c1 <= rejections c2)%Z ->
  (true_positives c1 + false_negatives c1
   = true_positives c2 + false_negatives c2)%Z ->
  exists r2, metrics c2 = Py.Return r2.
Proof.
  intros c1 c2 r1 H1 N1 N2 M1 M2 R P.
  rewrite metrics_spec in H1. unfold rejections in R.
  destruct (true_positives c1 + false_positives c1 =? 0)%Z eqn:E1; [discriminate|].
  destruct (true_positives c1 + false_negatives c1 =? 0)%Z eqn:E2; [discriminate|].
  apply Z.eqb_neq in E1. apply Z.eqb_neq in E2.
  rewrite metrics_spec.
  replace (true_positives c2 + false_positives c2 =? 0)%Z with false
    by (symmetry; apply Z.eqb_neq; lia).
  replace (true_positives c2 + false_negatives c2 =? 0)%Z with false
    by (symmetry; apply Z.eqb_neq; lia).
  eexists. reflexivity.
Qed.

(** A run that returns a report still returns one at any larger level. *)
Lemma returns_at_higher_level {L : Library} (G : Globals)
  (draw : nat -> rng -> truth * list float * rng) (s1 s2 : float) (st1 st2 : rng)
  (r1 : report) :
  PrimFloat.leb s1 s2 = true ->
  metrics (fst (run_trials G draw s1 n_iters st1)) = Py.Return r1 ->
  exists r2, metrics (fst (run_trials G draw s2 n_iters st2)) = Py.Return r2.
Proof.
  intros H H1.
  destruct (level_monotone G draw s1 s2 st1 st2 H n_iters) as (R & T & P).
  pose proof (counters_nonneg G draw s1 n_iters st1) as (N1 & N2 & _ & N4).
  pose proof (counters_nonneg G draw s2 n_iters st2) as (M1 & M2 & _ & M4).
  exact (metrics_returns_transfer _ _ r1 H1 N1 N2 M1 M2 R P).
Qed.

(** X15.  The cell of the three calls with levels 0.01, 0.05 and 0.10 fails
    in its first call or not at all: if the call with level 0.01 returns a
    report, so do the two calls that follow it, and the cell completes. *)
Theorem levels_cell_completes_after_first_call {L : Library} (G : Globals)
  (st : rng) (r1 : report) :
  fst (Part000.calc_precision_recall G 100 0.01 0.5 st) = Py.Return r1 ->
  exists r2 r3, fst (part000_cell_levels G st) = Py.Return [r1; r2; r3].
Proof.
  intros H1. pose proof H1 as M1. rewrite calc_outcome in M1.
  destruct (returns_at_higher_level G (Part000.draw G 100 0.5) 0.01 0.05 st
              (snd (Part000.calc_precision_recall G 100 0.01 0.5 st)) r1
              eq_refl M1) as [r2 M2].
  destruct (returns_at_higher_level G (Part000.draw G 100 0.5) 0.05 0.10
              (snd (Part000.calc_precision_recall G 100 0.01 0.5 st))
              (snd (Part000.calc_precision_recall G 100 0.05 0.5
                      (snd (Part000.calc_precision_recall G 100 0.01 0.5 st))))
              r2 eq_refl M2) as [r3 M3].
  exists r2, r3. rewrite part000_cell_levels_eq.
  apply seq_calls_three_returns.
  - exact H1.
  - rewrite calc_outcome. exact M2.
  - rewrite calc_outcome. exact M3.
Qed.

Lemma levels_cell_completes_witness :
  exists r1 r2 r3,
    fst (part000_cell_levels (L := Fixture.stuck) Notebook 0%Z)
      = Py.Return [r1; r2; r3].
Proof.
  destruct stuck_first_trial_hundred as [Ht Hp].
  assert (0 < n_iters)%nat as Hk by (rewrite n_iters_succ; apply Nat.lt_0_succ).
  destruct (returns_if_true_positive (L := Fixture.stuck) Notebook 100 0.01 0.5
              0%Z 0 Hk Ht Hp) as [r1 H1].
  exists r1.
  exact (@levels_cell_completes_after_first_call Fixture.stuck Notebook 0%Z r1 H1).
Defined.

Lemma lesson1_cell_levels_eq {L : Library} (G : Globals) (st : rng) :
  lesson1_cell_levels G st =
  seq_calls [Lesson1.calc_precision_recall G 100 0.01;
             Lesson1.calc_precision_recall G 100 0.05;
             Lesson1.calc_precision_recall G 100 0.10] st.
Proof. reflexivity. Qed.

Lemma lesson1_cell_default_eq {L : Library} (G : Globals) (st : rng) :
  lesson1_cell_default G st = Lesson1.calc_precision_recall G 100 0.05 st.
Proof. reflexivity. Qed.

(** X16.  In the first lesson the cell of the three calls with levels 0.01,
    0.05 and 0.10 also fails in its first call or not at all.  When it
    completes, rejections and true positives do not decrease from one report
    to the next, the three reports tally the same number of ground-truth
    positives, and the second report is the one the default call returns
    from any generator state. *)
Theorem lesson1_levels_cell {L : Library} (G : Globals) (st : rng) (r1 : report) :
  fst (Lesson1.calc_precision_recall G 100 0.01 st) = Py.Return r1 ->
  exists r2 r3,
    fst (lesson1_cell_levels G st) = Py.Return [r1; r2; r3] /\
    (rejections (counts r1) <= rejections (counts r2) <= rejections (counts r3) /\
     true_positives (counts r1) <= true_positives (counts r2)
       <= true_positives (counts r3) /\
     true_positives (counts r1) + false_negatives (counts r1)
       = true_positives (counts r2) + false_negatives (counts r2) /\
     true_positives (counts r2) + false_negatives (counts r2)
       = true_positives (counts r3) + false_negatives (counts r3))%Z /\
    (forall st', fst (lesson1_cell_default G st') = Py.Return r2).
Proof.
  intros H1. pose proof H1 as M1. rewrite lesson1_outcome in M1.
  destruct (returns_at_higher_level G (Lesson1.draw G 100) 0.01 0.05 st
              (snd (Lesson1.calc_precision_recall G 100 0.01 st)) r1
              eq_refl M1) as [r2 M2].
  destruct (returns_at_higher_level G (Lesson1.draw G 100) 0.05 0.10
              (snd (Lesson1.calc_precision_recall G 100 0.01 st))
              (snd (Lesson1.calc_precision_recall G 100 0.05
                      (snd (Lesson1.calc_precision_recall G 100 0.01 st))))
              r2 eq_refl M2) as [r3 M3].
  exists r2, r3. split; [|split].
  - rewrite lesson1_cell_levels_eq. apply seq_calls_three_returns.
    + exact H1.
    + rewrite lesson1_outcome. exact M2.
    + rewrite lesson1_outcome. exact M3.
  - rewrite (metrics_counts _ _ M1), (metrics_counts _ _ M2), (metrics_counts _ _ M3).
    destruct (level_monotone G (Lesson1.draw G 100) 0.01 0.05
                st (snd (Lesson1.calc_precision_recall G 100 0.01 st))
                eq_refl n_iters) as (R12 & T12 & P12).
    destruct (level_monotone G (Lesson1.draw G 100) 0.05 0.10
                (snd (Lesson1.calc_precision_recall G 100 0.01 st))
                (snd (Lesson1.calc_precision_recall G 100 0.05
                        (snd (Lesson1.calc_precision_recall G 100 0.01 st))))
                eq_refl n_iters) as (R23 & T23 & P23).
    split; [split; [exact R12 | exact R23]|].
    split; [split; [exact T12 | exact T23]|].
    split; [exact P12 | exact P23].
  - intros st'. rewrite lesson1_cell_default_eq, lesson1_outcome.
    rewrite (tally_independent_of_state G _ 0.05 _ st'
               (snd (Lesson1.calc_precision_recall G 100 0.01 st))).
    exact M2.
Qed.

Lemma stuck_lesson1_first_trial :
  trial_truth (L := Fixture.stuck) (Lesson1.draw (L := Fixture.stuck) Notebook 100) 0
    = positive /\
  Py.lt (trial_pvalue (L := Fixture.stuck) Notebook
           (Lesson1.draw (L := Fixture.stuck) Notebook 100) 0) 0.01 = true.
Proof. split; vm_compute; reflexivity. Qed.

Lemma lesson1_levels_cell_witness :
  exists r1 r2 r3,
    fst (lesson1_cell_levels (L := Fixture.stuck) Notebook 0%Z)
      = Py.Return [r1; r2; r3].
Proof.
  destruct stuck_lesson1_first_trial as [Ht Hp].
  assert (exists r1,
            fst (Lesson1.calc_precision_recall (L := Fixture.stuck) Notebook 100 0.01 0%Z)
              = Py.Return r1) as [r1 H1].
  { rewrite lesson1_outcome.
    pose proof (counters_nonneg (L := Fixture.stuck) Notebook
                  (Lesson1.draw (L := Fixture.stuck) Notebook 100) 0.01 n_iters 0%Z)
      as (_ & N2 & _ & N4).
    destruct (metrics_returns
                (fst (run_trials (L := Fixture.stuck) Notebook
                        (Lesson1.draw (L := Fixture.stuck) Notebook 100) 0.01
                        n_iters 0%Z))) as (r & Hr & _); try assumption.
    - apply Z.lt_le_trans with
        (true_positives
           (fst (run_trials (L := Fixture.stuck) Notebook
                   (Lesson1.draw (L := Fixture.stuck) Notebook 100) 0.01 1 0%Z))).
      + rewrite tally_succ, tally_trial_true_positives, Ht, Hp. reflexivity.
      + apply true_positives_mono. rewrite n_iters_succ. lia.
    - exists r. exact Hr. }
  exists r1.
  destruct (@lesson1_levels_cell Fixture.stuck Notebook 0%Z r1 H1)
    as (r2 & r3 & E & _).
  exists r2, r3. exact E.
Defined.

(** On the sample [[1; 3]] the t-statistic against 2.93 is below zero. *)
Lemma tstat_sign_witness :
  PrimFloat.ltb (PrimFloat.sub (Np.mean [1; 3]%float) (reference_mean Notebook)) 0 = true.
Proof.
  refine (proj1 (@tstat_sign_follows_mean Notebook [1; 3]%float) _).
  vm_compute. reflexivity.
Defined.
